(** * gcp-enumerator: the report script [main.py] and its printed output

    The script lists the projects a credential can see and prints, for
    each of them, four flat reports (Compute Engine, SQL, Memorystore,
    API keys).  Everything it handles is JSON received from remote
    calls, so the development works over a small model of Python's
    JSON values and of the builtins the script applies to them
    (subscripting, iteration, truthiness, [in], [str.join],
    [str.split], [list.sort]).

    Remote calls are answered by a [world]: a record of functions that
    give, for each request, the decoded response or the exception the
    call raises.  Printing is modelled by a writer: every statement
    returns the lines it printed together with its outcome. *)

From Stdlib Require Import List String Ascii ZArith Lia Bool Arith.
From Stdlib Require Import DecimalString.
From Stdlib Require Import Sorting.Sorted Sorting.Permutation.
Import ListNotations.

Local Open Scope string_scope.
Local Open Scope list_scope.

Set Warnings "-register-all".

(** ** Values *)

(** A decoded JSON document.  Numbers are integers (the script never
    computes with a number; fractional numbers are outside the model).
    A string is a sequence of characters, one [ascii] per character.
    A dict is an association list; [dict_get] returns the first
    binding of a key. *)
Inductive json : Type :=
| JNull
| JBool (b : bool)
| JNum (n : Z)
| JStr (s : string)
| JList (l : list json)
| JDict (d : list (string * json)).

(** The exceptions the script can meet.  [HttpError] stands for any
    exception a remote call raises on its own. *)
Inductive exn : Type :=
| KeyError
| IndexError
| TypeError
| AttributeError
| HttpError (status : Z)
| CalledProcessError (code : Z)
| OtherError (name : string).

(** The outcome of evaluating an expression or running a statement.
    [OutOfFuel] is not a Python outcome: it marks a pagination loop
    that was cut off by the model before the provider ended it. *)
Inductive result (A : Type) : Type :=
| Ok (a : A)
| Raise (e : exn)
| OutOfFuel.

Arguments Ok {A} a.
Arguments Raise {A} e.
Arguments OutOfFuel {A}.

Definition rbind {A B : Type} (r : result A) (f : A -> result B) : result B :=
  match r with
  | Ok a => f a
  | Raise e => Raise e
  | OutOfFuel => OutOfFuel
  end.

Declare Scope result_scope.
Delimit Scope result_scope with res.
Notation "x <- r ;; k" := (rbind r (fun x => k))
  (at level 61, r at next level, right associativity) : result_scope.

Fixpoint rmapM {A B : Type} (f : A -> result B) (l : list A) : result (list B) :=
  match l with
  | [] => Ok []
  | x :: l' =>
      rbind (f x) (fun y => rbind (rmapM f l') (fun ys => Ok (y :: ys)))
  end.

(** ** Python builtins on JSON values *)

Fixpoint dict_get (k : string) (d : list (string * json)) : option json :=
  match d with
  | [] => None
  | (k', v) :: d' => if String.eqb k k' then Some v else dict_get k d'
  end.

(** [seq[i]] for a Python sequence: a negative index counts from the
    end. *)
Definition py_index {A : Type} (l : list A) (i : Z) : option A :=
  let n := Z.of_nat (List.length l) in
  if (0 <=? i)%Z then nth_error l (Z.to_nat i)
  else if (0 <=? n + i)%Z then nth_error l (Z.to_nat (n + i))
  else None.

Fixpoint chars (s : string) : list string :=
  match s with
  | EmptyString => []
  | String c s' => String c EmptyString :: chars s'
  end.

(** [v[k]] with a string key. *)
Definition subscript_key (v : json) (k : string) : result json :=
  match v with
  | JDict d =>
      match dict_get k d with
      | Some x => Ok x
      | None => Raise KeyError
      end
  | _ => Raise TypeError
  end.

(** [v[i]] with an integer index.  A JSON dict has string keys only,
    so an integer is never one of its keys. *)
Definition subscript_index (v : json) (i : Z) : result json :=
  match v with
  | JList l =>
      match py_index l i with
      | Some x => Ok x
      | None => Raise IndexError
      end
  | JStr s =>
      match py_index (chars s) i with
      | Some c => Ok (JStr c)
      | None => Raise IndexError
      end
  | JDict _ => Raise KeyError
  | _ => Raise TypeError
  end.

(** [bool(v)], as an [if v:] tests it. *)
Definition py_truthy (v : json) : bool :=
  match v with
  | JNull => false
  | JBool b => b
  | JNum n => negb (n =? 0)%Z
  | JStr s => negb (String.eqb s "")
  | JList l => match l with [] => false | _ => true end
  | JDict d => match d with [] => false | _ => true end
  end.

(** The elements a [for] loop (or [extend], or [join]) draws from a
    value: the items of a list, the characters of a string, the keys
    of a dict. *)
Definition py_iter (v : json) : result (list json) :=
  match v with
  | JList l => Ok l
  | JStr s => Ok (map JStr (chars s))
  | JDict d => Ok (map (fun kv => JStr (fst kv)) d)
  | _ => Raise TypeError
  end.

Definition is_substring (k s : string) : bool :=
  match String.index 0 k s with
  | Some _ => true
  | None => false
  end.

(** [k in v] for a string literal [k]. *)
Definition py_in (k : string) (v : json) : result bool :=
  match v with
  | JDict d => Ok (match dict_get k d with Some _ => true | None => false end)
  | JList l =>
      Ok (existsb (fun x => match x with JStr s => String.eqb k s | _ => false end) l)
  | JStr s => Ok (is_substring k s)
  | _ => Raise TypeError
  end.

(** [d.get(k, default)]; only a dict has the method. *)
Definition py_get (v : json) (k : string) (default : json) : result json :=
  match v with
  | JDict d =>
      match dict_get k d with
      | Some x => Ok x
      | None => Ok default
      end
  | _ => Raise AttributeError
  end.

Definition as_str (v : json) : result string :=
  match v with
  | JStr s => Ok s
  | _ => Raise TypeError
  end.

(** [sep.join(xs)] for a list already built: every element must be a
    string. *)
Definition py_join (sep : string) (xs : list json) : result string :=
  rbind (rmapM as_str xs) (fun ss => Ok (String.concat sep ss)).

(** [sep.join(v)] for a JSON value [v]: the value is iterated first. *)
Definition py_join_value (sep : string) (v : json) : result string :=
  rbind (py_iter v) (py_join sep).

(** [s.split(c)] for a one-character separator: the pieces between
    the occurrences of [c]; never empty. *)
Fixpoint split_on (c : ascii) (s : string) : list string :=
  match s with
  | EmptyString => [EmptyString]
  | String a s' =>
      if Ascii.eqb a c then EmptyString :: split_on c s'
      else
        match split_on c s' with
        | [] => [String a EmptyString]
        | p :: ps => String a p :: ps
        end
  end.

(** [v.split('/')[-1]]: only a string has the method. *)
Definition last_segment (s : string) : string :=
  match py_index (split_on "/"%char s) (-1) with
  | Some p => p
  | None => EmptyString
  end.

Definition split_last (v : json) : result json :=
  match v with
  | JStr s =>
      match py_index (split_on "/"%char s) (-1) with
      | Some p => Ok (JStr p)
      | None => Raise IndexError
      end
  | _ => Raise AttributeError
  end.

(** ** Ordering and [list.sort] *)

Definition as_int (v : json) : option Z :=
  match v with
  | JNum n => Some n
  | JBool true => Some 1%Z
  | JBool false => Some 0%Z
  | _ => None
  end.

(** [a == b]: structural, with [True == 1]; two dicts are equal when
    they bind the same keys to equal values, in any order. *)
Fixpoint py_eq (a b : json) {struct a} : bool :=
  match a, b with
  | JNull, JNull => true
  | JStr s, JStr t => String.eqb s t
  | JList l, JList m =>
      (fix go (l : list json) (m : list json) {struct l} : bool :=
         match l, m with
         | [], [] => true
         | x :: l', y :: m' => py_eq x y && go l' m'
         | _, _ => false
         end) l m
  | JDict d, JDict e =>
      Nat.eqb (List.length d) (List.length e) &&
      (fix go (d : list (string * json)) {struct d} : bool :=
         match d with
         | [] => true
         | (k, v) :: d' =>
             match dict_get k e with
             | Some w => py_eq v w && go d'
             | None => false
             end
         end) d
  | _, _ =>
      match as_int a, as_int b with
      | Some x, Some y => (x =? y)%Z
      | _, _ => false
      end
  end.

(** [a < b]: defined between two strings (by character code, that is
    lexicographically), two integers, and two lists (at the first
    position where they differ); any other pair is unorderable. *)
Fixpoint py_lt (a b : json) {struct a} : result bool :=
  match a, b with
  | JStr s, JStr t => Ok (String.ltb s t)
  | JList l, JList m =>
      (fix go (l : list json) (m : list json) {struct l} : result bool :=
         match l, m with
         | [], [] => Ok false
         | [], _ :: _ => Ok true
         | _ :: _, [] => Ok false
         | x :: l', y :: m' => if py_eq x y then go l' m' else py_lt x y
         end) l m
  | _, _ =>
      match as_int a, as_int b with
      | Some x, Some y => Ok (x <? y)%Z
      | _, _ => Raise TypeError
      end
  end.

(** [list.sort()] is stable and compares with [<] only.  It is
    modelled as the stable insertion of each element, from the left,
    behind the elements that are not greater: on a list whose elements
    are pairwise orderable this is the list Python returns; the first
    comparison that raises ends the sort with its exception. *)
Fixpoint sort_insert (x : json) (l : list json) : result (list json) :=
  match l with
  | [] => Ok [x]
  | y :: l' =>
      rbind (py_lt x y) (fun b =>
        if b then Ok (x :: y :: l')
        else rbind (sort_insert x l') (fun r => Ok (y :: r)))
  end.

Fixpoint sort_loop (pending : list json) (sorted : list json) : result (list json) :=
  match pending with
  | [] => Ok sorted
  | x :: rest => rbind (sort_insert x sorted) (sort_loop rest)
  end.

Definition py_sort (l : list json) : result (list json) := sort_loop l [].

(** ** Printing *)

(** A statement returns the lines it printed and its outcome.  The
    lines printed before an exception stay printed. *)
Definition io (A : Type) : Type := (list string * result A)%type.

Definition ret {A : Type} (a : A) : io A := ([], Ok a).

Definition lift {A : Type} (r : result A) : io A := ([], r).

Definition print (line : string) : io unit := ([line], Ok tt).

Definition bind {A B : Type} (m : io A) (f : A -> io B) : io B :=
  let (out, r) := m in
  match r with
  | Ok a => let (out', r') := f a in (out ++ out', r')
  | Raise e => (out, Raise e)
  | OutOfFuel => (out, OutOfFuel)
  end.

Declare Scope io_scope.
Delimit Scope io_scope with io.
Notation "x <- m ;; k" := (bind m (fun x => k))
  (at level 61, m at next level, right associativity) : io_scope.
Notation "m ;; k" := (bind m (fun _ => k))
  (at level 61, right associativity) : io_scope.

(** [for x in l: body(x)] over the elements already drawn. *)
Fixpoint for_each {A : Type} (l : list A) (body : A -> io unit) : io unit :=
  match l with
  | [] => ret tt
  | x :: l' => bind (body x) (fun _ => for_each l' body)
  end.

(** ** The remote world *)

(** The listing methods of the discovery clients the script builds. *)
Inductive api : Type :=
| ProjectsList
| ZonesList (project : json)
| RegionsList (project : json)
| InstancesList (project zone : json)
| DisksList (project zone : json)
| AddressesList (project region : json)
| SqlInstancesList (project : json).

(** A request object: the method called and the page cursor it
    carries ([None] for the request the method first returns). *)
Record request : Type := Request {
  req_api : api;
  req_page : option string
}.

(** What a remote call gives back. *)
Inductive reply (A : Type) : Type :=
| Reply (a : A)
| Fails (e : exn).

Arguments Reply {A} a.
Arguments Fails {A} e.

Definition of_reply {A : Type} (r : reply A) : result A :=
  match r with
  | Reply a => Ok a
  | Fails e => Raise e
  end.

(** A Memorystore instance as the client library hands it out.  Each
    field holds the text [str()] gives for the attribute of the same
    name. *)
Record redis_instance : Type := RedisInstance {
  location_id : string;
  display_name : string;
  state : string;
  redis_version : string;
  host : string;
  tier : string;
  memory_size_gb : string
}.

(** The pager [list_instances] returns: iterating it yields
    [pager_items] and then, when a later page cannot be fetched,
    raises [pager_error]. *)
Record pager : Type := Pager {
  pager_items : list redis_instance;
  pager_error : option exn
}.

(** The collaborators of one run.  Building a client
    ([googleapiclient.discovery.build], [redis_v1.CloudRedisClient])
    is taken to succeed, and a provider answers the same request the
    same way throughout a run. *)
Record world : Type := World {
  execute : request -> reply json;
  list_next : request -> json -> option request;
  redis_list_instances : json -> reply pager;
  http_get_json : json -> string -> reply json;
  gcloud_print_access_token : reply string
}.

(** ** The script *)

Section Script.

Variable w : world.

Local Open Scope result_scope.

(** [get_projects(service)] *)
Fixpoint get_projects_loop (fuel : nat) (request : request)
    (projects : list json) : result (list json) :=
  match fuel with
  | O => OutOfFuel
  | S fuel' =>
      response <- of_reply (execute w request) ;;
      page <- py_get response "projects" (JList []) ;;
      more <- py_iter page ;;
      match list_next w request response with
      | None => Ok (projects ++ more)
      | Some request' => get_projects_loop fuel' request' (projects ++ more)
      end
  end.

Definition get_projects (fuel : nat) : result (list json) :=
  get_projects_loop fuel (Request ProjectsList None) [].

(** The loop shared by [get_zones] and [get_regions]: the names of
    the items of every page, in page order. *)
Fixpoint names_loop (fuel : nat) (request : request)
    (names : list json) : result (list json) :=
  match fuel with
  | O => OutOfFuel
  | S fuel' =>
      response <- of_reply (execute w request) ;;
      items <- subscript_key response "items" ;;
      elems <- py_iter items ;;
      more <- rmapM (fun item => subscript_key item "name") elems ;;
      match list_next w request response with
      | None => Ok (names ++ more)
      | Some request' => names_loop fuel' request' (names ++ more)
      end
  end.

(** [get_zones(project)] *)
Definition get_zones (fuel : nat) (project : json) : result (list json) :=
  zones <- names_loop fuel (Request (ZonesList project) None) [] ;;
  py_sort zones.

(** [get_regions(project)] *)
Definition get_regions (fuel : nat) (project : json) : result (list json) :=
  regions <- names_loop fuel (Request (RegionsList project) None) [] ;;
  py_sort regions.

(** [result['items'] if 'items' in result else None] *)
Definition items_or_none (res : json) : result json :=
  present <- py_in "items" res ;;
  if present then subscript_key res "items" else Ok JNull.

Definition list_instances (project zone : json) : result json :=
  res <- of_reply (execute w (Request (InstancesList project zone) None)) ;;
  items_or_none res.

Definition list_disks (project zone : json) : result json :=
  res <- of_reply (execute w (Request (DisksList project zone) None)) ;;
  items_or_none res.

Definition list_addresses (project region : json) : result json :=
  res <- of_reply (execute w (Request (AddressesList project region) None)) ;;
  items_or_none res.

(** [instance["networkInterfaces"][0]["accessConfigs"][0]["natIP"]] *)
Definition nat_ip_path (instance : json) : result json :=
  a <- subscript_key instance "networkInterfaces" ;;
  b <- subscript_index a 0 ;;
  c <- subscript_key b "accessConfigs" ;;
  d <- subscript_index c 0 ;;
  subscript_key d "natIP".

(** [get_external_ip(instance)]: the handler is [except KeyError]. *)
Definition get_external_ip (instance : json) : result json :=
  match nat_ip_path instance with
  | Raise KeyError => Ok (JStr "none")
  | r => r
  end.

(** [('|'.join(item["users"])).split('/')[-1]] *)
Definition users_field (item : json) : result json :=
  users <- subscript_key item "users" ;;
  joined <- py_join_value "|" users ;;
  split_last (JStr joined).

(** The line printed for one compute instance. *)
Definition instance_row (item : json) : result string :=
  f1 <- (z <- subscript_key item "zone" ;; split_last z) ;;
  f2 <- subscript_key item "name" ;;
  f3 <- subscript_key item "status" ;;
  f4 <- (m <- subscript_key item "machineType" ;; split_last m) ;;
  f5 <- (n <- subscript_key item "networkInterfaces" ;;
         n0 <- subscript_index n 0 ;;
         subscript_key n0 "networkIP") ;;
  f6 <- get_external_ip item ;;
  py_join "," [f1; f2; f3; f4; f5; f6].

(** The line printed for one disk. *)
Definition disk_row (item : json) : result string :=
  f1 <- (z <- subscript_key item "zone" ;; split_last z) ;;
  f2 <- subscript_key item "name" ;;
  f3 <- subscript_key item "status" ;;
  f4 <- subscript_key item "sizeGb" ;;
  f5 <- users_field item ;;
  py_join "," [f1; f2; f3; f4; f5].

(** The line printed for one address. *)
Definition address_row (item : json) : result string :=
  f1 <- (r <- subscript_key item "region" ;; split_last r) ;;
  f2 <- subscript_key item "name" ;;
  f3 <- subscript_key item "status" ;;
  f4 <- subscript_key item "address" ;;
  f5 <- subscript_key item "networkTier" ;;
  f6 <- subscript_key item "addressType" ;;
  f7 <- users_field item ;;
  py_join "," [f1; f2; f3; f4; f5; f6; f7].

(** The line printed for one SQL instance. *)
Definition sql_row (item : json) : result string :=
  f1 <- subscript_key item "region" ;;
  f2 <- subscript_key item "gceZone" ;;
  f3 <- subscript_key item "name" ;;
  f4 <- subscript_key item "state" ;;
  f5 <- subscript_key item "databaseVersion" ;;
  f6 <- (s <- subscript_key item "settings" ;; subscript_key s "tier") ;;
  f7 <- (s <- subscript_key item "settings" ;;
         subscript_key s "availabilityType") ;;
  f8 <- (a <- subscript_key item "ipAddresses" ;;
         a0 <- subscript_index a 0 ;;
         subscript_key a0 "ipAddress") ;;
  f9 <- (a <- subscript_key item "ipAddresses" ;;
         a1 <- subscript_index a 1 ;;
         subscript_key a1 "ipAddress") ;;
  py_join "," [f1; f2; f3; f4; f5; f6; f7; f8; f9].

(** The line printed for one API key. *)
Definition key_row (item : json) : result string :=
  f1 <- subscript_key item "keyId" ;;
  f2 <- subscript_key item "displayName" ;;
  f3 <- subscript_key item "currentKey" ;;
  f4 <- subscript_key item "createTime" ;;
  py_join "," [f1; f2; f3; f4].

(** The line printed for one Memorystore instance. *)
Definition redis_row (item : redis_instance) : string :=
  String.concat "," [location_id item; display_name item; state item;
                     redis_version item; host item; tier item;
                     memory_size_gb item].

Local Close Scope result_scope.
Local Open Scope io_scope.

(** [for item in items: print(",".join([...]))] *)
Definition print_each (row : json -> result string) (items : json) : io unit :=
  elems <- lift (py_iter items) ;;
  for_each elems (fun item => line <- lift (row item) ;; print line).

(** The same loop under [if items:]. *)
Definition print_rows (row : json -> result string) (items : json) : io unit :=
  if py_truthy items then print_each row items else ret tt.

(** [compute_instance_report(project)] *)
Definition compute_instance_report (fuel : nat) (project : json) : io unit :=
  print "==== Compute Engine ====" ;;
  print "-- Instances --" ;;
  zones <- lift (get_zones fuel project) ;;
  for_each zones (fun zone =>
    items <- lift (list_instances project zone) ;;
    print_rows instance_row items) ;;
  print "-- Disks --" ;;
  zones <- lift (get_zones fuel project) ;;
  for_each zones (fun zone =>
    items <- lift (list_disks project zone) ;;
    print_rows disk_row items) ;;
  print "-- Addresses --" ;;
  regions <- lift (get_regions fuel project) ;;
  for_each regions (fun region =>
    addresses <- lift (list_addresses project region) ;;
    print_rows address_row addresses).

Definition list_sql_instances (project : json) : result json :=
  rbind (of_reply (execute w (Request (SqlInstancesList project) None)))
        items_or_none.

(** [sql_instance_report(project)]: the loop is not guarded by
    [if items:]. *)
Definition sql_instance_report (project : json) : io unit :=
  print "==== SQL Engine ====" ;;
  items <- lift (list_sql_instances project) ;;
  print_each sql_row items.

(** [list_redis_instances(service, project)]: a bare [except:] turns
    every exception of the call into [None]. *)
Definition list_redis_instances (project : json) : option pager :=
  match redis_list_instances w project with
  | Reply result => Some result
  | Fails _ => None
  end.

(** A pager object is truthy, [None] is not. *)
Definition pager_truthy (items : option pager) : bool :=
  match items with
  | Some _ => true
  | None => false
  end.

(** [redis_instance_report(project)] *)
Definition redis_instance_report (project : json) : io unit :=
  print "==== Memorystore ====" ;;
  let items := list_redis_instances project in
  if pager_truthy items then
    match items with
    | Some p =>
        for_each (pager_items p) (fun item => print (redis_row item)) ;;
        match pager_error p with
        | Some e => lift (Raise e)
        | None => ret tt
        end
    | None => lift (Raise TypeError)
    end
  else ret tt.

(** [api_keys_report(service, access_token, project)] *)
Definition api_keys_report (access_token : string) (project : json) : io unit :=
  print "==== API Keys ====" ;;
  items <- lift (of_reply (http_get_json w project access_token)) ;;
  has_error <- lift (py_in "error" items) ;;
  if negb has_error then
    if py_truthy items then
      keys <- lift (subscript_key items "keys") ;;
      print_each key_row keys
    else ret tt
  else ret tt.

(** [create_token()]: [check=True] raises when the tool fails. *)
Definition create_token : result string :=
  of_reply (gcloud_print_access_token w).

(** Python's [repr] of a list or a dict, which an f-string shows for
    a [projectId] that is neither a string nor a scalar. *)
Variable py_repr : json -> string.

Definition decimal (n : Z) : string := NilZero.string_of_int (Z.to_int n).

(** What an f-string shows for a value. *)
Definition py_format (v : json) : string :=
  match v with
  | JStr s => s
  | JNum n => decimal n
  | JBool true => "True"
  | JBool false => "False"
  | JNull => "None"
  | _ => py_repr v
  end.

(** The body of the loop of [main] for one project. *)
Definition project_report (fuel : nat) (access_token : string)
    (project : json) : io unit :=
  id <- lift (subscript_key project "projectId") ;;
  print ("======================== " ++ py_format id) ;;
  id <- lift (subscript_key project "projectId") ;;
  compute_instance_report fuel id ;;
  id <- lift (subscript_key project "projectId") ;;
  sql_instance_report id ;;
  id <- lift (subscript_key project "projectId") ;;
  redis_instance_report id ;;
  id <- lift (subscript_key project "projectId") ;;
  api_keys_report access_token id.

(** [main()] *)
Definition main (fuel : nat) : io unit :=
  access_token <- lift create_token ;;
  projects <- lift (get_projects fuel) ;;
  for_each projects (project_report fuel access_token) ;;
  print "======================== END".

End Script.

Arguments get_external_ip instance : simpl never.

(** ** Vocabulary of the statements *)

(** The pages a provider serves from a request on: the response to
    the request, then the pages from the request [list_next] gives,
    until [list_next] gives [None]. *)
Inductive pages_from (w : world) : request -> list json -> Prop :=
| LastPage req resp :
    execute w req = Reply resp ->
    list_next w req resp = None ->
    pages_from w req [resp]
| NextPage req resp req' rest :
    execute w req = Reply resp ->
    list_next w req resp = Some req' ->
    pages_from w req' rest ->
    pages_from w req (resp :: rest).

(** A page of a project listing and the projects it holds: the list
    under ["projects"], or nothing when the key is absent. *)
Definition page_projects (resp : json) (projects : list json) : Prop :=
  exists d, resp = JDict d /\
    (dict_get "projects" d = Some (JList projects) \/
     (dict_get "projects" d = None /\ projects = [])).

(** A page of a zone or region listing and the names of its items. *)
Definition page_names (resp : json) (names : list string) : Prop :=
  exists d items, resp = JDict d /\
    dict_get "items" d = Some (JList items) /\
    Forall2 (fun item name => subscript_key item "name" = Ok (JStr name))
            items names.

Definition str_le (a b : string) : Prop := String.leb a b = true.

(** A record on which the path to the external IP stops at a dict
    that lacks the next key. *)
Inductive missing_key : json -> Prop :=
| NoInterfaces d :
    dict_get "networkInterfaces" d = None ->
    missing_key (JDict d)
| NoAccessConfigs d nic nics :
    dict_get "networkInterfaces" d = Some (JList (JDict nic :: nics)) ->
    dict_get "accessConfigs" nic = None ->
    missing_key (JDict d)
| NoNatIP d nic nics ac acs :
    dict_get "networkInterfaces" d = Some (JList (JDict nic :: nics)) ->
    dict_get "accessConfigs" nic = Some (JList (JDict ac :: acs)) ->
    dict_get "natIP" ac = None ->
    missing_key (JDict d).

(** The loop that prints one row per element. *)
Definition print_lines (row : json -> result string) (elems : list json) : io unit :=
  for_each elems (fun item => bind (lift (row item)) (fun line => print line)).

(** The evaluation ends with an exception. *)
Definition raises {A : Type} (r : result A) : Prop := exists e, r = Raise e.

(** A managed SQL instance as the report reads it. *)
Record sql_instance : Type := SqlInstance {
  sql_region : string;
  sql_gce_zone : string;
  sql_name : string;
  sql_state : string;
  sql_database_version : string;
  sql_tier : string;
  sql_availability_type : string;
  sql_ip_addresses : list string
}.

(** [item] is a JSON record of the SQL instance [r]: every field the
    report reads is present and a string, and "ipAddresses" lists one
    entry per address of [r], in order. *)
Definition sql_record (item : json) (r : sql_instance) : Prop :=
  subscript_key item "region" = Ok (JStr (sql_region r)) /\
  subscript_key item "gceZone" = Ok (JStr (sql_gce_zone r)) /\
  subscript_key item "name" = Ok (JStr (sql_name r)) /\
  subscript_key item "state" = Ok (JStr (sql_state r)) /\
  subscript_key item "databaseVersion" = Ok (JStr (sql_database_version r)) /\
  (exists settings,
      subscript_key item "settings" = Ok settings /\
      subscript_key settings "tier" = Ok (JStr (sql_tier r)) /\
      subscript_key settings "availabilityType" =
        Ok (JStr (sql_availability_type r))) /\
  (exists addresses,
      subscript_key item "ipAddresses" = Ok (JList addresses) /\
      Forall2 (fun a ip => subscript_key a "ipAddress" = Ok (JStr ip))
              addresses (sql_ip_addresses r)).

(** The row of an instance with the two addresses [ip0] and [ip1]. *)
Definition sql_line (r : sql_instance) (ip0 ip1 : string) : string :=
  String.concat ","
    [sql_region r; sql_gce_zone r; sql_name r; sql_state r;
     sql_database_version r; sql_tier r; sql_availability_type r; ip0; ip1].

Definition sql_line_of (r : sql_instance) : string :=
  sql_line r (nth 0 (sql_ip_addresses r) "") (nth 1 (sql_ip_addresses r) "").

(** An API key as the report reads it. *)
Record api_key : Type := ApiKey {
  key_id : string;
  key_display_name : string;
  key_current_key : string;
  key_create_time : string
}.

Definition key_record (item : json) (k : api_key) : Prop :=
  subscript_key item "keyId" = Ok (JStr (key_id k)) /\
  subscript_key item "displayName" = Ok (JStr (key_display_name k)) /\
  subscript_key item "currentKey" = Ok (JStr (key_current_key k)) /\
  subscript_key item "createTime" = Ok (JStr (key_create_time k)).

Definition key_line (k : api_key) : string :=
  String.concat ","
    [key_id k; key_display_name k; key_current_key k; key_create_time k].

(** ** Sample records and worlds *)

(** An instance created without an external address, as the record
    reaches the script when the interface carries an empty
    [accessConfigs] list. *)
Definition instance_empty_access_configs : json :=
  JDict [("name", JStr "vm-1");
         ("networkInterfaces",
          JList [JDict [("networkIP", JStr "10.0.0.2");
                        ("accessConfigs", JList [])]])].

(** The same instance with the [accessConfigs] key left out. *)
Definition instance_no_access_configs : json :=
  JDict [("name", JStr "vm-1");
         ("networkInterfaces",
          JList [JDict [("networkIP", JStr "10.0.0.2")]])].


(** A provider that answers every listing with one page of no items,
    has no Memorystore access and serves no API keys. *)
Definition world_empty : world :=
  World (fun _ => Reply (JDict [("items", JList [])]))
        (fun _ _ => None)
        (fun _ => Fails (OtherError "PermissionDenied"))
        (fun _ _ => Reply (JDict []))
        (Reply "ya29.token").

(** An instance that runs without an external address. *)
Definition instance_internal_only : json :=
  JDict [("zone", JStr "https://www.googleapis.com/compute/v1/projects/demo-project/zones/us-east1-b");
         ("name", JStr "vm-1");
         ("status", JStr "RUNNING");
         ("machineType", JStr "https://www.googleapis.com/compute/v1/projects/demo-project/zones/us-east1-b/machineTypes/e2-medium");
         ("networkInterfaces",
          JList [JDict [("network", JStr "default");
                        ("networkIP", JStr "10.0.0.2")]])].

(** One project with the zones us-east1-b (one instance, no external
    address) and us-central1-a (no instance), no region, no disk, no
    Memorystore instance and no API key.  The response of the SQL
    listing is left open. *)
Definition scenario_execute (sql_response : json) (req : request) : reply json :=
  match req_api req with
  | ProjectsList =>
      Reply (JDict [("projects", JList [JDict [("projectId", JStr "demo-project")]])])
  | ZonesList _ =>
      Reply (JDict [("items", JList [JDict [("name", JStr "us-east1-b")];
                                     JDict [("name", JStr "us-central1-a")]])])
  | RegionsList _ => Reply (JDict [("items", JList [])])
  | InstancesList _ (JStr "us-east1-b") =>
      Reply (JDict [("kind", JStr "compute#instanceList");
                    ("items", JList [instance_internal_only])])
  | InstancesList _ _ => Reply (JDict [("kind", JStr "compute#instanceList")])
  | DisksList _ _ => Reply (JDict [("kind", JStr "compute#diskList")])
  | AddressesList _ _ => Reply (JDict [("kind", JStr "compute#addressList")])
  | SqlInstancesList _ => Reply sql_response
  end.

Definition scenario (sql_response : json) : world :=
  World (scenario_execute sql_response)
        (fun _ _ => None)
        (fun _ => Reply (Pager [] None))
        (fun _ _ => Reply (JDict []))
        (Reply "ya29.token").

(** The SQL listing of a project without SQL instances: the response
    carries no "items" key. *)
Definition sql_listing_empty : json := JDict [("kind", JStr "sql#instancesList")].

Definition sql_json (name : string) (addresses : list json) : json :=
  JDict [("region", JStr "us-east1"); ("gceZone", JStr "us-east1-b");
         ("name", JStr name); ("state", JStr "RUNNABLE");
         ("databaseVersion", JStr "POSTGRES_13");
         ("settings", JDict [("tier", JStr "db-f1-micro");
                             ("availabilityType", JStr "ZONAL")]);
         ("ipAddresses", JList addresses)].

Definition address_json (ip : string) : json :=
  JDict [("type", JStr "PRIMARY"); ("ipAddress", JStr ip)].

Definition sql_sample (name : string) (ips : list string) : sql_instance :=
  SqlInstance "us-east1" "us-east1-b" name "RUNNABLE" "POSTGRES_13"
              "db-f1-micro" "ZONAL" ips.

(** A SQL listing with one instance of two addresses followed by one
    with a single address. *)
Definition sql_listing_mixed : json :=
  JDict [("items",
          JList [sql_json "db-a" [address_json "34.1.2.3"; address_json "10.1.0.5"];
                 sql_json "db-b" [address_json "10.1.0.6"]])].

(** An API-key response that denies access, and one that lists a key. *)
Definition keys_denied : json :=
  JDict [("error", JDict [("code", JNum 403); ("status", JStr "PERMISSION_DENIED")])].

Definition keys_listing : json :=
  JDict [("keys",
          JList [JDict [("keyId", JStr "k-1"); ("displayName", JStr "browser key");
                        ("currentKey", JStr "AIzaSyA"); ("createTime", JStr "2020-05-01T10:00:00Z")]])].

Definition world_keys (body : json) : world :=
  World (fun _ => Reply (JDict [("items", JList [])]))
        (fun _ _ => None)
        (fun _ => Reply (Pager [] None))
        (fun _ _ => Reply body)
        (Reply "ya29.token").

(** A provider that pages the way the discovery client does: a
    response that carries "nextPageToken" is followed by the request
    for that token.  It serves three projects on two pages, three
    zones on two pages and two regions on one page. *)
Definition paged_execute (req : request) : reply json :=
  match req_api req, req_page req with
  | ProjectsList, None =>
      Reply (JDict [("projects", JList [JDict [("projectId", JStr "proj-b")];
                                        JDict [("projectId", JStr "proj-a")]]);
                    ("nextPageToken", JStr "p2")])
  | ProjectsList, Some _ =>
      Reply (JDict [("projects", JList [JDict [("projectId", JStr "proj-c")]])])
  | ZonesList _, None =>
      Reply (JDict [("items", JList [JDict [("name", JStr "us-west1-b")];
                                     JDict [("name", JStr "us-east1-b")]]);
                    ("nextPageToken", JStr "z2")])
  | ZonesList _, Some _ =>
      Reply (JDict [("items", JList [JDict [("name", JStr "europe-west1-c")]])])
  | RegionsList _, _ =>
      Reply (JDict [("items", JList [JDict [("name", JStr "us-west1")];
                                     JDict [("name", JStr "europe-west1")]])])
  | _, _ => Reply (JDict [])
  end.

Definition paged_list_next (req : request) (resp : json) : option request :=
  match resp with
  | JDict d =>
      match dict_get "nextPageToken" d with
      | Some (JStr token) => Some (Request (req_api req) (Some token))
      | _ => None
      end
  | _ => None
  end.

Definition world_paged : world :=
  World paged_execute paged_list_next
        (fun _ => Reply (Pager [] None))
        (fun _ _ => Reply (JDict []))
        (Reply "ya29.token").

(** The character [c] occurs in [s]. *)
Fixpoint contains_char (c : ascii) (s : string) : bool :=
  match s with
  | EmptyString => false
  | String a s' => Ascii.eqb a c || contains_char c s'
  end.

(** A disk attached to two instances, and a reserved address in use
    by one forwarding rule. *)
Definition disk_two_users : json :=
  JDict [("zone", JStr "https://www.googleapis.com/compute/v1/projects/demo-project/zones/us-east1-b");
         ("name", JStr "data-disk");
         ("status", JStr "READY");
         ("sizeGb", JStr "200");
         ("users",
          JList [JStr "https://www.googleapis.com/compute/v1/projects/demo-project/zones/us-east1-b/instances/vm-1";
                 JStr "https://www.googleapis.com/compute/v1/projects/demo-project/zones/us-east1-b/instances/vm-2"])].

Definition disk_two_users_refs : list string :=
  ["https://www.googleapis.com/compute/v1/projects/demo-project/zones/us-east1-b/instances/vm-1";
   "https://www.googleapis.com/compute/v1/projects/demo-project/zones/us-east1-b/instances/vm-2"].

(** A disk whose last user reference is a bare name. *)
Definition disk_short_last_user : json :=
  JDict [("zone", JStr "zones/us-east1-b");
         ("name", JStr "data-disk");
         ("status", JStr "READY");
         ("sizeGb", JStr "200");
         ("users", JList [JStr "zones/us-east1-b/instances/vm-1"; JStr "vm-2"])].

(** ** Typed views of the other records *)

(** A compute instance as the report reads it; [ci_nat_ip] is the
    external address of the first access config of the first
    interface, when there is one. *)
Record compute_instance : Type := ComputeInstance {
  ci_zone : string;
  ci_name : string;
  ci_status : string;
  ci_machine_type : string;
  ci_network_ip : string;
  ci_nat_ip : option string
}.

Definition instance_record (item : json) (r : compute_instance) : Prop :=
  subscript_key item "zone" = Ok (JStr (ci_zone r)) /\
  subscript_key item "name" = Ok (JStr (ci_name r)) /\
  subscript_key item "status" = Ok (JStr (ci_status r)) /\
  subscript_key item "machineType" = Ok (JStr (ci_machine_type r)) /\
  exists nic nics,
    subscript_key item "networkInterfaces" = Ok (JList (JDict nic :: nics)) /\
    dict_get "networkIP" nic = Some (JStr (ci_network_ip r)) /\
    match ci_nat_ip r with
    | Some ip =>
        exists ac acs,
          dict_get "accessConfigs" nic = Some (JList (JDict ac :: acs)) /\
          dict_get "natIP" ac = Some (JStr ip)
    | None =>
        dict_get "accessConfigs" nic = None \/
        exists ac acs,
          dict_get "accessConfigs" nic = Some (JList (JDict ac :: acs)) /\
          dict_get "natIP" ac = None
    end.

Definition instance_line (r : compute_instance) : string :=
  String.concat ","
    [last_segment (ci_zone r); ci_name r; ci_status r;
     last_segment (ci_machine_type r); ci_network_ip r;
     match ci_nat_ip r with Some ip => ip | None => "none" end].

(** An instance with an external address on its first interface. *)
Definition instance_external : json :=
  JDict [("zone", JStr "projects/demo-project/zones/us-east1-b");
         ("name", JStr "web-1");
         ("status", JStr "RUNNING");
         ("machineType", JStr "projects/demo-project/zones/us-east1-b/machineTypes/e2-small");
         ("networkInterfaces",
          JList [JDict [("networkIP", JStr "10.0.0.3");
                        ("accessConfigs", JList [JDict [("natIP", JStr "34.9.8.7")]])]])].

(** An instance record that carries no "networkInterfaces" at all. *)
Definition instance_no_interfaces : json :=
  JDict [("zone", JStr "projects/demo-project/zones/us-east1-b");
         ("name", JStr "ghost");
         ("status", JStr "TERMINATED");
         ("machineType", JStr "projects/demo-project/zones/us-east1-b/machineTypes/e2-small")].

(** What one listing call contributes to a section of the compute
    report: the response is a dict; without "items" nothing is
    printed, with a list under "items" one line per element. *)
Definition listing_rows (row : json -> result string) (resp : reply json)
    (lines : list string) : Prop :=
  exists d, resp = Reply (JDict d) /\
    ((dict_get "items" d = None /\ lines = []) \/
     exists elems,
       dict_get "items" d = Some (JList elems) /\ rmapM row elems = Ok lines).

(** A disk that is attached to no instance: the record carries no
    "users" key. *)
Definition disk_unattached : json :=
  JDict [("zone", JStr "projects/demo-project/zones/us-east1-b");
         ("name", JStr "spare-disk");
         ("status", JStr "READY");
         ("sizeGb", JStr "50")].

(** One zone with one instance and one attached disk, one region
    with no address. *)
Definition compute_execute (req : request) : reply json :=
  match req_api req with
  | ZonesList _ => Reply (JDict [("items", JList [JDict [("name", JStr "us-east1-b")]])])
  | RegionsList _ => Reply (JDict [("items", JList [JDict [("name", JStr "us-east1")]])])
  | InstancesList _ _ => Reply (JDict [("items", JList [instance_external])])
  | DisksList _ _ => Reply (JDict [("items", JList [disk_two_users])])
  | AddressesList _ _ => Reply (JDict [("kind", JStr "compute#addressList")])
  | _ => Reply (JDict [])
  end.

Definition world_compute : world :=
  World compute_execute (fun _ _ => None)
        (fun _ => Reply (Pager [] None))
        (fun _ _ => Reply (JDict []))
        (Reply "ya29.token").

(** A provider whose listings carry no "items" key at all. *)
Definition world_no_items : world :=
  World (fun _ => Reply (JDict [("kind", JStr "compute#zoneList")]))
        (fun _ _ => None)
        (fun _ => Reply (Pager [] None))
        (fun _ _ => Reply (JDict []))
        (Reply "ya29.token").

(** A run in which every remote call fails. *)
Definition world_down : world :=
  World (fun _ => Fails (HttpError 503))
        (fun _ _ => None)
        (fun _ => Fails (HttpError 503))
        (fun _ _ => Fails (OtherError "ConnectionError"))
        (Fails (CalledProcessError 1)).

(** Two Memorystore instances, and a pager that fails behind the
    first page. *)
Definition redis_a : redis_instance :=
  RedisInstance "us-east1-b" "cache-a" "State.READY" "REDIS_6_X" "10.2.0.3"
                "Tier.BASIC" "1".

Definition redis_b : redis_instance :=
  RedisInstance "us-east1-c" "cache-b" "State.READY" "REDIS_6_X" "10.2.0.4"
                "Tier.STANDARD_HA" "5".

Definition world_redis (p : pager) : world :=
  World (fun _ => Reply (JDict [("items", JList [])]))
        (fun _ _ => None)
        (fun _ => Reply p)
        (fun _ _ => Reply (JDict []))
        (Reply "ya29.token").

(** The lines of the compute report in the run of [scenario]. *)
Definition scenario_compute_lines : list string :=
  ["==== Compute Engine ====";
   "-- Instances --";
   "us-east1-b,vm-1,RUNNING,e2-medium,10.0.0.2,none";
   "-- Disks --";
   "-- Addresses --"].

(** The provider serves [pages] from a request on and fails on the
    request behind them. *)
Inductive fails_after (w : world) : request -> list json -> exn -> Prop :=
| FailsNow req e :
    execute w req = Fails e ->
    fails_after w req [] e
| FailsLater req resp req' rest e :
    execute w req = Reply resp ->
    list_next w req resp = Some req' ->
    fails_after w req' rest e ->
    fails_after w req (resp :: rest) e.

(** A provider whose second page of projects cannot be fetched. *)
Definition broken_execute (req : request) : reply json :=
  match req_api req, req_page req with
  | ProjectsList, None =>
      Reply (JDict [("projects", JList [JDict [("projectId", JStr "proj-a")]]);
                    ("nextPageToken", JStr "p2")])
  | _, _ => Fails (HttpError 500)
  end.

Definition world_broken : world :=
  World broken_execute paged_list_next
        (fun _ => Reply (Pager [] None))
        (fun _ _ => Reply (JDict []))
        (Reply "ya29.token").

(** A provider that hands out a next-page token with every page. *)
Definition world_endless : world :=
  World (fun _ => Reply (JDict [("projects", JList [JDict [("projectId", JStr "proj-a")]]);
                                ("nextPageToken", JStr "again")]))
        paged_list_next
        (fun _ => Reply (Pager [] None))
        (fun _ _ => Reply (JDict []))
        (Reply "ya29.token").

(** The zones of [world_paged], served on one page in another order. *)
Definition world_one_page : world :=
  World (fun _ => Reply (JDict [("items", JList [JDict [("name", JStr "europe-west1-c")];
                                                 JDict [("name", JStr "us-west1-b")];
                                                 JDict [("name", JStr "us-east1-b")]])]))
        (fun _ _ => None)
        (fun _ => Reply (Pager [] None))
        (fun _ _ => Reply (JDict []))
        (Reply "ya29.token").

(** The number of occurrences of [c] in [s]. *)
Fixpoint count_char (c : ascii) (s : string) : nat :=
  match s with
  | EmptyString => 0
  | String a s' => (if Ascii.eqb a c then 1 else 0) + count_char c s'
  end.

(** An API key whose display name holds a comma. *)
Definition key_with_comma : api_key :=
  ApiKey "k-2" "maps, staging" "AIzaSyB" "2020-05-02T09:30:00Z".

(** One zone with one instance and no disk; the region listing
    carries no "items". *)
Definition no_regions_execute (req : request) : reply json :=
  match req_api req with
  | ZonesList _ => Reply (JDict [("items", JList [JDict [("name", JStr "us-east1-b")]])])
  | InstancesList _ _ => Reply (JDict [("items", JList [instance_external])])
  | _ => Reply (JDict [("kind", JStr "compute#regionList")])
  end.

Definition world_no_regions : world :=
  World no_regions_execute (fun _ _ => None)
        (fun _ => Reply (Pager [] None))
        (fun _ _ => Reply (JDict []))
        (Reply "ya29.token").

(** * Properties *)

(** ** Laws of the writer *)

Lemma bind_lift_ok {A B : Type} (a : A) (f : A -> io B) :
  bind (lift (Ok a)) f = f a.
Proof. unfold bind, lift. destruct (f a) as [out r]. reflexivity. Qed.

Lemma bind_lift_raise {A B : Type} (e : exn) (f : A -> io B) :
  bind (lift (Raise e)) f = ([], Raise e).
Proof. reflexivity. Qed.

Lemma bind_ret {A B : Type} (a : A) (f : A -> io B) :
  bind (ret a) f = f a.
Proof. apply bind_lift_ok. Qed.

Lemma bind_print {B : Type} (line : string) (f : unit -> io B) :
  bind (print line) f = (line :: fst (f tt), snd (f tt)).
Proof. unfold bind, print. destruct (f tt) as [out r]. reflexivity. Qed.

Lemma bind_outcome {A B : Type} (out : list string) (r : result A)
    (f : A -> io B) :
  bind (out, r) f =
  match r with
  | Ok a => (out ++ fst (f a), snd (f a))
  | Raise e => (out, Raise e)
  | OutOfFuel => (out, OutOfFuel)
  end.
Proof. unfold bind. destruct r; try reflexivity. destruct (f a); reflexivity. Qed.

(** An exception is never handled by what follows: it is the outcome
    of the whole sequence. *)
Lemma bind_raises {A B : Type} (m : io A) (f : A -> io B) (e : exn) :
  snd m = Raise e -> bind m f = (fst m, Raise e).
Proof. destruct m as [out r]; simpl; intros ->. reflexivity. Qed.

Lemma print_lines_cons row x elems :
  print_lines row (x :: elems) =
  bind (bind (lift (row x)) (fun line => print line))
       (fun _ => print_lines row elems).
Proof. reflexivity. Qed.

Lemma print_lines_ok row elems lines :
  rmapM row elems = Ok lines ->
  print_lines row elems = (lines, Ok tt).
Proof.
  revert lines. induction elems as [|x elems IH]; intros lines H.
  - inversion H. reflexivity.
  - rewrite print_lines_cons. cbn [rmapM] in H.
    destruct (row x) as [line| |]; try discriminate.
    destruct (rmapM row elems) as [rest| |]; try discriminate.
    inversion H; subst. rewrite bind_lift_ok, bind_print.
    rewrite (IH rest eq_refl). reflexivity.
Qed.

Lemma print_lines_raise row good bad rest lines e :
  rmapM row good = Ok lines ->
  row bad = Raise e ->
  print_lines row (good ++ bad :: rest) = (lines, Raise e).
Proof.
  revert lines. induction good as [|x good IH]; intros lines H Hbad.
  - inversion H. cbn [app]. rewrite print_lines_cons, Hbad. reflexivity.
  - cbn [app]. rewrite print_lines_cons. cbn [rmapM] in H.
    destruct (row x) as [line| |]; try discriminate.
    destruct (rmapM row good) as [ls| |]; try discriminate.
    inversion H; subst. rewrite bind_lift_ok, bind_print.
    rewrite (IH ls eq_refl Hbad). reflexivity.
Qed.

Lemma print_each_list row elems :
  print_each row (JList elems) = print_lines row elems.
Proof. unfold print_each. cbn [py_iter]. rewrite bind_lift_ok. reflexivity. Qed.

(** ** External IP of an instance *)

(** [get_external_ip] lets through every outcome of the path lookup
    but [KeyError]. *)
Lemma get_external_ip_outcome (instance : json) :
  get_external_ip instance =
  match nat_ip_path instance with
  | Raise KeyError => Ok (JStr "none")
  | r => r
  end.
Proof. reflexivity. Qed.

Lemma get_external_ip_never_KeyError (instance : json) :
  get_external_ip instance <> Raise KeyError.
Proof.
  rewrite get_external_ip_outcome.
  destruct (nat_ip_path instance) as [v|e|]; try discriminate.
  destruct e; discriminate.
Qed.

(** C1, as the code has it: when the path
    networkInterfaces[0].accessConfigs[0].natIP stops at a dict that
    lacks the next key (the record has no "networkInterfaces", its
    first interface has no "accessConfigs", or the first access config
    has no "natIP"), [get_external_ip] returns the string "none". *)
Theorem get_external_ip_missing_key (instance : json) :
  missing_key instance ->
  get_external_ip instance = Ok (JStr "none").
Proof.
  intros H. rewrite get_external_ip_outcome. unfold nat_ip_path.
  destruct H as [d H1 | d nic nics H1 H2 | d nic nics ac acs H1 H2 H3];
    cbn [subscript_key rbind]; rewrite H1; cbn [rbind].
  - reflexivity.
  - cbn. rewrite H2. reflexivity.
  - cbn. rewrite H2. cbn. rewrite H3. reflexivity.
Qed.

Lemma get_external_ip_missing_key_witness :
  missing_key instance_no_access_configs /\
  get_external_ip instance_no_access_configs = Ok (JStr "none").
Proof.
  assert (H : missing_key instance_no_access_configs).
  { eapply NoAccessConfigs; reflexivity. }
  split; [exact H | exact (get_external_ip_missing_key _ H)].
Defined.

(** C1 as stated fails: a record whose first interface carries an
    empty "accessConfigs" list lacks the path, and the lookup raises
    IndexError, which [except KeyError] does not handle. *)
Lemma get_external_ip_empty_list_raises :
  (forall v, nat_ip_path instance_empty_access_configs <> Ok v) /\
  get_external_ip instance_empty_access_configs = Raise IndexError.
Proof. split; [intros v; discriminate | reflexivity]. Qed.

(** ** Compute report without zones or regions *)

(** C7: when the zone enumeration and the region enumeration of a
    project both return no name, [compute_instance_report] prints its
    four banner lines and nothing else, and returns. *)
Theorem compute_report_no_zones_no_regions (w : world) (fuel : nat)
    (project : json) :
  get_zones w fuel project = Ok [] ->
  get_regions w fuel project = Ok [] ->
  compute_instance_report w fuel project =
    (["==== Compute Engine ===="; "-- Instances --"; "-- Disks --";
      "-- Addresses --"], Ok tt).
Proof.
  intros Hz Hr. unfold compute_instance_report.
  rewrite Hz, Hr. reflexivity.
Qed.

Lemma compute_report_no_zones_no_regions_witness :
  compute_instance_report world_empty 1 (JStr "demo-project") =
    (["==== Compute Engine ===="; "-- Instances --"; "-- Disks --";
      "-- Addresses --"], Ok tt).
Proof.
  apply (compute_report_no_zones_no_regions world_empty 1 (JStr "demo-project"));
    reflexivity.
Defined.

(** ** Memorystore report *)

Lemma api_keys_report_banner (w : world) (token : string) (project : json) :
  exists rows, fst (api_keys_report w token project) = "==== API Keys ====" :: rows.
Proof.
  unfold api_keys_report. rewrite bind_print. cbn [fst]. eauto.
Qed.

(** C4: when the listing call of the cache client raises, whatever
    the exception, [redis_instance_report] prints the Memorystore
    banner only and returns normally; the API-key report that follows
    it in [main] then runs, so the next line printed is its banner. *)
Theorem redis_report_listing_raises (w : world) (project : json) (e : exn) :
  redis_list_instances w project = Fails e ->
  redis_instance_report w project = (["==== Memorystore ===="], Ok tt) /\
  forall token,
    bind (redis_instance_report w project)
         (fun _ => api_keys_report w token project) =
      ("==== Memorystore ====" :: fst (api_keys_report w token project),
       snd (api_keys_report w token project)) /\
    exists rows,
      fst (api_keys_report w token project) = "==== API Keys ====" :: rows.
Proof.
  intros H.
  assert (R : redis_instance_report w project = (["==== Memorystore ===="], Ok tt)).
  { unfold redis_instance_report, list_redis_instances. rewrite H. reflexivity. }
  split; [exact R|]. intros token. split.
  - rewrite R, bind_outcome. reflexivity.
  - apply api_keys_report_banner.
Qed.

Lemma redis_report_listing_raises_witness :
  redis_instance_report world_empty (JStr "demo-project") =
    (["==== Memorystore ===="], Ok tt).
Proof.
  apply (redis_report_listing_raises world_empty (JStr "demo-project")
           (OtherError "PermissionDenied")).
  reflexivity.
Defined.

(** ** SQL report *)

Lemma subscript_key_fuel (v : json) (k : string) :
  subscript_key v k <> OutOfFuel.
Proof.
  destruct v; simpl; try discriminate.
  destruct (dict_get k d); discriminate.
Qed.

Lemma rmapM_rows {R : Type} (row : json -> result string)
    (rel : json -> R -> Prop) (line : R -> string) items rs :
  (forall item r, rel item r -> row item = Ok (line r)) ->
  Forall2 rel items rs ->
  rmapM row items = Ok (map line rs).
Proof.
  intros Hrow H. induction H as [|item r items rs Hr _ IH]; simpl.
  - reflexivity.
  - rewrite (Hrow _ _ Hr), IH. reflexivity.
Qed.

Lemma sql_row_two_addresses item r ip0 ip1 :
  sql_record item r ->
  sql_ip_addresses r = [ip0; ip1] ->
  sql_row item = Ok (sql_line r ip0 ip1).
Proof.
  intros (H1 & H2 & H3 & H4 & H5 & (settings & S0 & S1 & S2) &
          (addresses & A0 & A)) Hips.
  rewrite Hips in A.
  inversion A as [|a0 i0 l0 l0' Ha0 A' E0 E0']; subst.
  inversion A' as [|a1 i1 l1 l1' Ha1 A'' E1 E1']; subst.
  inversion A''; subst.
  unfold sql_row. rewrite H1, H2, H3, H4, H5, S0, A0.
  cbn [rbind]. rewrite S1, S2. cbn [rbind].
  change (subscript_index (JList [a0; a1]) 0) with (Ok a0).
  change (subscript_index (JList [a0; a1]) 1) with (Ok a1).
  cbn [rbind]. rewrite Ha0, Ha1. reflexivity.
Qed.

Lemma sql_row_record_fewer_than_two item r :
  sql_record item r ->
  List.length (sql_ip_addresses r) < 2 ->
  sql_row item = Raise IndexError.
Proof.
  intros (H1 & H2 & H3 & H4 & H5 & (settings & S0 & S1 & S2) &
          (addresses & A0 & A)) Hlen.
  unfold sql_row. rewrite H1, H2, H3, H4, H5, S0, A0.
  cbn [rbind]. rewrite S1, S2. cbn [rbind].
  destruct A as [|a0 i0 l0 l0' Ha0 A']; [reflexivity|].
  destruct A' as [|a1 i1 l1 l1' Ha1 A'']; [|simpl in Hlen; lia].
  change (subscript_index (JList [a0]) 0) with (Ok a0).
  cbn [rbind]. rewrite Ha0. reflexivity.
Qed.

Lemma rbind_fuel {A B : Type} (r : result A) (f : A -> result B) :
  r <> OutOfFuel -> (forall a, f a <> OutOfFuel) -> rbind r f <> OutOfFuel.
Proof. destruct r; simpl; auto; discriminate. Qed.

Lemma rbind_raises {A B : Type} (r : result A) (f : A -> result B) :
  r <> OutOfFuel -> (forall a, raises (f a)) -> raises (rbind r f).
Proof.
  destruct r as [a|e|]; simpl; intros H Hf.
  - apply Hf.
  - exists e. reflexivity.
  - congruence.
Qed.

Lemma rbind_raises_now {A B : Type} (r : result A) (f : A -> result B) :
  raises r -> raises (rbind r f).
Proof. intros [e ->]. exists e. reflexivity. Qed.

Lemma sql_row_fewer_than_two item addresses :
  subscript_key item "ipAddresses" = Ok (JList addresses) ->
  List.length addresses < 2 ->
  raises (sql_row item).
Proof.
  intros A0 Hlen. unfold sql_row. rewrite A0. cbn [rbind].
  repeat (apply rbind_raises;
          [ first [ apply subscript_key_fuel
                  | apply rbind_fuel;
                    [apply subscript_key_fuel | intros; apply subscript_key_fuel] ]
          | intros ? ]).
  destruct addresses as [|x [|y rest]]; simpl in Hlen; try lia.
  - apply rbind_raises_now. exists IndexError. reflexivity.
  - change (subscript_index (JList [x]) 0) with (Ok x). cbn [rbind].
    apply rbind_raises; [apply subscript_key_fuel|]. intros f8.
    apply rbind_raises_now. exists IndexError. reflexivity.
Qed.

Lemma items_or_none_dict (d : list (string * json)) :
  items_or_none (JDict d) =
  Ok (match dict_get "items" d with Some v => v | None => JNull end).
Proof.
  unfold items_or_none. cbn [py_in rbind subscript_key].
  destruct (dict_get "items" d); reflexivity.
Qed.

Lemma sql_rows_two_addresses items rs :
  Forall2 sql_record items rs ->
  Forall (fun r => List.length (sql_ip_addresses r) = 2) rs ->
  rmapM sql_row items = Ok (map sql_line_of rs).
Proof.
  intros H. induction H as [|item r items rs Hr _ IH]; intros Htwo.
  - reflexivity.
  - inversion Htwo as [|r' rs' Hlen Hrest]; subst.
    assert (Hips : exists ip0 ip1, sql_ip_addresses r = [ip0; ip1]).
    { destruct (sql_ip_addresses r) as [|ip0 [|ip1 [|ip2 l]]];
        simpl in Hlen; try discriminate. eauto. }
    destruct Hips as (ip0 & ip1 & Hips).
    cbn [rmapM map]. rewrite (sql_row_two_addresses _ _ _ _ Hr Hips).
    rewrite (IH Hrest). unfold sql_line_of. rewrite Hips. reflexivity.
Qed.

(** C2: on a listing whose records all carry exactly two entries in
    "ipAddresses", [sql_instance_report] prints, after its banner, one
    row per record that ends with the address of entry 0 and then the
    address of entry 1.  A record whose "ipAddresses" list has fewer
    than two entries makes the report raise: the rows of the records
    before it are printed and the exception leaves the function. *)
Theorem sql_report_ip_addresses (w : world) (project : json)
    (d : list (string * json)) (items : list json) :
  execute w (Request (SqlInstancesList project) None) = Reply (JDict d) ->
  dict_get "items" d = Some (JList items) ->
  (forall rs,
      Forall2 sql_record items rs ->
      Forall (fun r => List.length (sql_ip_addresses r) = 2) rs ->
      sql_instance_report w project =
        ("==== SQL Engine ====" :: map sql_line_of rs, Ok tt)) /\
  (forall good_items good bad addresses rest,
      items = good_items ++ bad :: rest ->
      Forall2 sql_record good_items good ->
      Forall (fun r => List.length (sql_ip_addresses r) = 2) good ->
      subscript_key bad "ipAddresses" = Ok (JList addresses) ->
      List.length addresses < 2 ->
      exists e,
        sql_instance_report w project =
          ("==== SQL Engine ====" :: map sql_line_of good, Raise e)).
Proof.
  intros Hexec Hitems.
  assert (L : list_sql_instances w project = Ok (JList items)).
  { unfold list_sql_instances. rewrite Hexec. cbn [of_reply rbind].
    rewrite items_or_none_dict, Hitems. reflexivity. }
  split.
  - intros rs Hrec Htwo. unfold sql_instance_report.
    rewrite bind_print, L, bind_lift_ok, print_each_list.
    rewrite (print_lines_ok _ _ _ (sql_rows_two_addresses _ _ Hrec Htwo)).
    reflexivity.
  - intros good_items good bad addresses rest -> Hrec Htwo Hbad Hlen.
    destruct (sql_row_fewer_than_two _ _ Hbad Hlen) as [e He].
    exists e. unfold sql_instance_report.
    rewrite bind_print, L, bind_lift_ok, print_each_list.
    rewrite (print_lines_raise _ _ _ rest _ e
               (sql_rows_two_addresses _ _ Hrec Htwo) He).
    reflexivity.
Qed.

Lemma sql_record_sample name ips :
  sql_record (sql_json name (map address_json ips)) (sql_sample name ips).
Proof.
  repeat split.
  - eexists. repeat split.
  - eexists. split; [reflexivity|].
    induction ips; simpl; constructor; auto.
Qed.

Lemma sql_report_ip_addresses_witness :
  (sql_instance_report (scenario sql_listing_mixed) (JStr "demo-project") =
     (["==== SQL Engine ====";
       "us-east1,us-east1-b,db-a,RUNNABLE,POSTGRES_13,db-f1-micro,ZONAL,34.1.2.3,10.1.0.5"],
      Raise IndexError)) /\
  exists e,
    sql_instance_report (scenario sql_listing_mixed) (JStr "demo-project") =
      ("==== SQL Engine ====" ::
         map sql_line_of [sql_sample "db-a" ["34.1.2.3"; "10.1.0.5"]],
       Raise e).
Proof.
  split; [reflexivity|].
  refine (proj2 (sql_report_ip_addresses (scenario sql_listing_mixed)
                   (JStr "demo-project") _ _ eq_refl eq_refl)
            [sql_json "db-a" (map address_json ["34.1.2.3"; "10.1.0.5"])]
            [sql_sample "db-a" ["34.1.2.3"; "10.1.0.5"]]
            (sql_json "db-b" [address_json "10.1.0.6"])
            [address_json "10.1.0.6"] [] eq_refl _ _ eq_refl _).
  - constructor; [apply sql_record_sample | constructor].
  - constructor; [reflexivity | constructor].
  - simpl. lia.
Defined.

(** C10: when the response of the SQL listing is a dict without an
    "items" key, [list_sql_instances] returns None and
    [sql_instance_report] prints its banner and then raises TypeError
    (the loop iterates over None).  The compute report, given the same
    kind of response for a zone, prints nothing and goes on; so does
    the cache report given a pager without instances. *)
Theorem sql_report_without_items (w : world) (project : json)
    (d : list (string * json)) :
  execute w (Request (SqlInstancesList project) None) = Reply (JDict d) ->
  dict_get "items" d = None ->
  list_sql_instances w project = Ok JNull /\
  sql_instance_report w project = (["==== SQL Engine ===="], Raise TypeError) /\
  (forall zone d',
      execute w (Request (InstancesList project zone) None) = Reply (JDict d') ->
      dict_get "items" d' = None ->
      list_instances w project zone = Ok JNull /\
      bind (lift (list_instances w project zone)) (print_rows instance_row) =
        ([], Ok tt)) /\
  (redis_list_instances w project = Reply (Pager [] None) ->
   redis_instance_report w project = (["==== Memorystore ===="], Ok tt)).
Proof.
  intros Hexec Hitems.
  assert (L : list_sql_instances w project = Ok JNull).
  { unfold list_sql_instances. rewrite Hexec. cbn [of_reply rbind].
    rewrite items_or_none_dict, Hitems. reflexivity. }
  split; [exact L|]. split; [|split].
  - unfold sql_instance_report. rewrite bind_print, L, bind_lift_ok.
    reflexivity.
  - intros zone d' Hz Hd'.
    assert (Lz : list_instances w project zone = Ok JNull).
    { unfold list_instances. rewrite Hz. cbn [of_reply rbind].
      rewrite items_or_none_dict, Hd'. reflexivity. }
    split; [exact Lz|]. rewrite Lz, bind_lift_ok. reflexivity.
  - intros Hr. unfold redis_instance_report, list_redis_instances.
    rewrite Hr. reflexivity.
Qed.

Lemma sql_report_without_items_witness :
  sql_instance_report (scenario sql_listing_empty) (JStr "demo-project") =
    (["==== SQL Engine ===="], Raise TypeError).
Proof.
  apply (sql_report_without_items (scenario sql_listing_empty)
           (JStr "demo-project") [("kind", JStr "sql#instancesList")]);
    reflexivity.
Defined.

(** ** API-key report *)

Lemma key_row_record item k :
  key_record item k -> key_row item = Ok (key_line k).
Proof.
  intros (H1 & H2 & H3 & H4). unfold key_row.
  rewrite H1, H2, H3, H4. reflexivity.
Qed.

(** C5: when the body of the API-key response is a dict with an
    "error" key, [api_keys_report] prints its banner only and returns
    normally.  When the body has no "error" key and lists key records
    under "keys", one row per record is printed, in order. *)
Theorem api_keys_report_error_or_keys (w : world) (token : string)
    (project : json) (d : list (string * json)) :
  http_get_json w project token = Reply (JDict d) ->
  (dict_get "error" d <> None ->
   api_keys_report w token project = (["==== API Keys ===="], Ok tt)) /\
  (dict_get "error" d = None ->
   forall items keys,
     dict_get "keys" d = Some (JList items) ->
     Forall2 key_record items keys ->
     api_keys_report w token project =
       ("==== API Keys ====" :: map key_line keys, Ok tt)).
Proof.
  intros Hget. split.
  - intros Herr. unfold api_keys_report.
    rewrite bind_print, Hget. cbn [of_reply]. rewrite bind_lift_ok.
    cbn [py_in]. rewrite bind_lift_ok.
    destruct (dict_get "error" d); [reflexivity | congruence].
  - intros Herr items keys Hkeys Hrec. unfold api_keys_report.
    rewrite bind_print, Hget. cbn [of_reply]. rewrite bind_lift_ok.
    cbn [py_in]. rewrite bind_lift_ok, Herr. cbn [negb].
    assert (Ht : py_truthy (JDict d) = true).
    { destruct d; [discriminate | reflexivity]. }
    rewrite Ht. cbn [subscript_key]. rewrite Hkeys, bind_lift_ok.
    rewrite print_each_list.
    rewrite (print_lines_ok _ _ _
               (rmapM_rows key_row key_record key_line _ _ key_row_record Hrec)).
    reflexivity.
Qed.

Lemma api_keys_report_error_or_keys_witness :
  api_keys_report (world_keys keys_denied) "ya29.token" (JStr "demo-project") =
    (["==== API Keys ===="], Ok tt) /\
  api_keys_report (world_keys keys_listing) "ya29.token" (JStr "demo-project") =
    (["==== API Keys ====";
      "k-1,browser key,AIzaSyA,2020-05-01T10:00:00Z"], Ok tt).
Proof.
  split.
  - apply (api_keys_report_error_or_keys (world_keys keys_denied) "ya29.token"
             (JStr "demo-project") _ eq_refl).
    discriminate.
  - refine (proj2 (api_keys_report_error_or_keys (world_keys keys_listing)
                     "ya29.token" (JStr "demo-project") _ eq_refl)
              eq_refl _
              [ApiKey "k-1" "browser key" "AIzaSyA" "2020-05-01T10:00:00Z"]
              eq_refl _).
    constructor; [repeat split | constructor].
Defined.

(** ** Pagination *)

Lemma pages_from_nonempty w req pages :
  pages_from w req pages -> pages <> [].
Proof. intros H; destruct H; discriminate. Qed.

Lemma page_projects_step resp projects :
  page_projects resp projects ->
  rbind (py_get resp "projects" (JList [])) py_iter = Ok projects.
Proof.
  intros (d & -> & [H | [H ->]]); cbn [py_get]; rewrite H; reflexivity.
Qed.

Lemma get_projects_loop_pages w req pages :
  pages_from w req pages ->
  forall lists fuel acc,
    Forall2 page_projects pages lists ->
    List.length pages <= fuel ->
    get_projects_loop w fuel req acc = Ok (acc ++ List.concat lists).
Proof.
  induction 1 as [req resp Hexec Hnext | req resp req' rest Hexec Hnext _ IH];
    intros lists fuel acc Hpages Hfuel;
    inversion Hpages as [|p l ps ls Hp Hrest]; subst;
    (destruct fuel as [|fuel]; [simpl in Hfuel; lia|]);
    pose proof (page_projects_step _ _ Hp) as Hstep;
    cbn [get_projects_loop]; rewrite Hexec; cbn [of_reply rbind];
    destruct (py_get resp "projects" (JList [])) as [page| |];
      try discriminate; cbn [rbind] in Hstep |- *; rewrite Hstep;
    cbn [rbind]; rewrite Hnext.
  - inversion Hrest; subst. cbn [List.concat]. rewrite app_nil_r. reflexivity.
  - rewrite (IH ls fuel (acc ++ l) Hrest); [|simpl in Hfuel; lia].
    cbn [List.concat]. rewrite app_assoc. reflexivity.
Qed.

(** C8: [get_projects] requests page after page, starting from the
    first request and following [list_next] until it gives None, and
    returns the project lists of all the pages served, concatenated
    in page order, with nothing removed. *)
Theorem get_projects_all_pages (w : world) (fuel : nat)
    (pages : list json) (lists : list (list json)) :
  pages_from w (Request ProjectsList None) pages ->
  Forall2 page_projects pages lists ->
  List.length pages <= fuel ->
  get_projects w fuel = Ok (List.concat lists).
Proof.
  intros Hpages Hlists Hfuel. unfold get_projects.
  rewrite (get_projects_loop_pages _ _ _ Hpages lists fuel [] Hlists Hfuel).
  reflexivity.
Qed.

Lemma get_projects_all_pages_witness :
  get_projects world_paged 2 =
    Ok [JDict [("projectId", JStr "proj-b")];
        JDict [("projectId", JStr "proj-a")];
        JDict [("projectId", JStr "proj-c")]].
Proof.
  refine (get_projects_all_pages world_paged 2
            [JDict [("projects", JList [JDict [("projectId", JStr "proj-b")];
                                        JDict [("projectId", JStr "proj-a")]]);
                    ("nextPageToken", JStr "p2")];
             JDict [("projects", JList [JDict [("projectId", JStr "proj-c")]])]]
            [[JDict [("projectId", JStr "proj-b")];
              JDict [("projectId", JStr "proj-a")]];
             [JDict [("projectId", JStr "proj-c")]]]
            _ _ _).
  - eapply NextPage; [reflexivity | reflexivity |].
    eapply LastPage; reflexivity.
  - constructor; [|constructor; [|constructor]];
      eexists; (split; [reflexivity|]); left; reflexivity.
  - simpl. lia.
Defined.

(** ** Zone and region enumeration *)

Lemma page_names_step resp names :
  page_names resp names ->
  rbind (subscript_key resp "items")
        (fun items =>
           rbind (py_iter items)
                 (rmapM (fun item => subscript_key item "name"))) =
  Ok (map JStr names).
Proof.
  intros (d & items & -> & Hitems & Hnames).
  cbn [subscript_key]. rewrite Hitems. cbn [rbind py_iter]. clear Hitems.
  induction Hnames as [|item name items names Hn _ IH]; cbn [rmapM map].
  - reflexivity.
  - rewrite Hn. cbn [rbind]. rewrite IH. reflexivity.
Qed.

Lemma names_loop_pages w req pages :
  pages_from w req pages ->
  forall names fuel acc,
    Forall2 page_names pages names ->
    List.length pages <= fuel ->
    names_loop w fuel req acc = Ok (acc ++ map JStr (List.concat names)).
Proof.
  induction 1 as [req resp Hexec Hnext | req resp req' rest Hexec Hnext _ IH];
    intros names fuel acc Hpages Hfuel;
    inversion Hpages as [|p l ps ls Hp Hrest]; subst;
    (destruct fuel as [|fuel]; [simpl in Hfuel; lia|]);
    pose proof (page_names_step _ _ Hp) as Hstep;
    cbn [names_loop]; rewrite Hexec; cbn [of_reply rbind];
    destruct (subscript_key resp "items") as [items| |];
      try discriminate; cbn [rbind] in Hstep |- *;
    destruct (py_iter items) as [elems| |];
      try discriminate; cbn [rbind] in Hstep |- *; rewrite Hstep;
    cbn [rbind]; rewrite Hnext.
  - inversion Hrest; subst. cbn [List.concat]. rewrite app_nil_r. reflexivity.
  - rewrite (IH ls fuel (acc ++ map JStr l) Hrest); [|simpl in Hfuel; lia].
    cbn [List.concat]. rewrite map_app, app_assoc. reflexivity.
Qed.

Lemma str_le_trans a : forall b c, str_le a b -> str_le b c -> str_le a c.
Proof.
  unfold str_le, String.leb.
  induction a as [|x a IH]; intros [|y b] [|z c]; simpl; try congruence.
  destruct (Ascii.compare x y) eqn:Exy; try congruence;
    destruct (Ascii.compare y z) eqn:Eyz; try congruence.
  - apply Ascii.compare_eq_iff in Exy, Eyz. subst.
    assert (Ascii.compare z z = Eq) as ->.
    { unfold Ascii.compare. apply N.compare_refl. }
    apply IH.
  - apply Ascii.compare_eq_iff in Exy. subst. rewrite Eyz. auto.
  - apply Ascii.compare_eq_iff in Eyz. subst. rewrite Exy. auto.
  - assert (Ascii.compare x z = Lt) as ->.
    { unfold Ascii.compare in *. rewrite N.compare_lt_iff in *. lia. }
    auto.
Qed.

Lemma ltb_str_le a b : String.ltb a b = true -> str_le a b.
Proof.
  unfold String.ltb, str_le, String.leb.
  destruct (String.compare a b); congruence.
Qed.

Lemma not_ltb_str_le a b : String.ltb a b = false -> str_le b a.
Proof.
  unfold String.ltb, str_le, String.leb.
  rewrite (String.compare_antisym b a).
  destruct (String.compare a b); simpl; congruence.
Qed.

(** Inserting a string into a sorted list of strings never raises
    and keeps the list sorted. *)
Lemma sort_insert_strings x sorted :
  Sorted str_le sorted ->
  exists s,
    sort_insert (JStr x) (map JStr sorted) = Ok (map JStr s) /\
    Sorted str_le s /\
    Permutation s (x :: sorted) /\
    (forall y, str_le y x -> HdRel str_le y sorted -> HdRel str_le y s).
Proof.
  induction sorted as [|y sorted IH]; intros Hs.
  - exists [x]. repeat split; auto. 
  - cbn [map sort_insert py_lt rbind].
    destruct (String.ltb x y) eqn:Hlt.
    + exists (x :: y :: sorted). repeat split; auto.
      constructor; [exact Hs|]. constructor. exact (ltb_str_le _ _ Hlt).
    + inversion Hs as [|y' l' Hs' Hhd]; subst.
      destruct (IH Hs') as (s & Hins & Hsorted & Hperm & Hkeep).
      rewrite Hins. cbn [rbind].
      exists (y :: s). repeat split.
      * constructor; [exact Hsorted|].
        apply Hkeep; [exact (not_ltb_str_le _ _ Hlt) | exact Hhd].
      * rewrite Hperm. apply perm_swap.
      * intros z _ Hz. inversion Hz; subst. constructor. assumption.
Qed.

Lemma sort_loop_strings pending :
  forall sorted,
    Sorted str_le sorted ->
    exists s,
      sort_loop (map JStr pending) (map JStr sorted) = Ok (map JStr s) /\
      Sorted str_le s /\
      Permutation s (pending ++ sorted).
Proof.
  induction pending as [|x pending IH]; intros sorted Hs.
  - exists sorted. repeat split; auto.
  - cbn [map sort_loop].
    destruct (sort_insert_strings x sorted Hs) as (s1 & Hins & Hs1 & Hp1 & _).
    rewrite Hins. cbn [rbind].
    destruct (IH s1 Hs1) as (s & Hloop & Hsorted & Hperm).
    exists s. repeat split; auto.
    rewrite Hperm, Hp1. cbn [app]. symmetry. apply Permutation_middle.
Qed.

(** [list.sort()] on strings: no exception, the same strings, in
    ascending lexicographic order. *)
Lemma py_sort_strings names :
  exists s,
    py_sort (map JStr names) = Ok (map JStr s) /\
    StronglySorted str_le s /\
    Permutation s names.
Proof.
  destruct (sort_loop_strings names [] (Sorted_nil _)) as (s & H & Hs & Hp).
  exists s. repeat split.
  - exact H.
  - apply Sorted_StronglySorted; [|exact Hs].
    intros a b c. apply str_le_trans.
  - rewrite app_nil_r in Hp. exact Hp.
Qed.

Lemma names_sorted w fuel req pages names :
  pages_from w req pages ->
  Forall2 page_names pages names ->
  List.length pages <= fuel ->
  exists sorted,
    rbind (names_loop w fuel req []) py_sort = Ok (map JStr sorted) /\
    StronglySorted str_le sorted /\
    Permutation sorted (List.concat names).
Proof.
  intros Hpages Hnames Hfuel.
  rewrite (names_loop_pages _ _ _ Hpages names fuel [] Hnames Hfuel).
  cbn [app rbind]. apply py_sort_strings.
Qed.

(** C6: whatever the order in which the pages of the provider carry
    the zone names (or region names) of a project, [get_zones] (or
    [get_regions]) returns all of them, each as often as it was
    served, in ascending lexicographic order. *)
Theorem zones_regions_sorted (w : world) (fuel : nat) (project : json)
    (zone_pages region_pages : list json)
    (zone_names region_names : list (list string)) :
  pages_from w (Request (ZonesList project) None) zone_pages ->
  Forall2 page_names zone_pages zone_names ->
  List.length zone_pages <= fuel ->
  pages_from w (Request (RegionsList project) None) region_pages ->
  Forall2 page_names region_pages region_names ->
  List.length region_pages <= fuel ->
  (exists zones,
      get_zones w fuel project = Ok (map JStr zones) /\
      StronglySorted str_le zones /\
      Permutation zones (List.concat zone_names)) /\
  (exists regions,
      get_regions w fuel project = Ok (map JStr regions) /\
      StronglySorted str_le regions /\
      Permutation regions (List.concat region_names)).
Proof.
  intros Hz Hzn Hzf Hr Hrn Hrf. split.
  - exact (names_sorted _ _ _ _ _ Hz Hzn Hzf).
  - exact (names_sorted _ _ _ _ _ Hr Hrn Hrf).
Qed.

Lemma zones_regions_sorted_witness :
  (exists zones,
      get_zones world_paged 2 (JStr "proj-a") = Ok (map JStr zones) /\
      StronglySorted str_le zones /\
      Permutation zones
        (List.concat [["us-west1-b"; "us-east1-b"]; ["europe-west1-c"]])) /\
  (exists regions,
      get_regions world_paged 2 (JStr "proj-a") = Ok (map JStr regions) /\
      StronglySorted str_le regions /\
      Permutation regions (List.concat [["us-west1"; "europe-west1"]])).
Proof.
  refine (zones_regions_sorted world_paged 2 (JStr "proj-a")
            [JDict [("items", JList [JDict [("name", JStr "us-west1-b")];
                                     JDict [("name", JStr "us-east1-b")]]);
                    ("nextPageToken", JStr "z2")];
             JDict [("items", JList [JDict [("name", JStr "europe-west1-c")]])]]
            [JDict [("items", JList [JDict [("name", JStr "us-west1")];
                                     JDict [("name", JStr "europe-west1")]])]]
            [["us-west1-b"; "us-east1-b"]; ["europe-west1-c"]]
            [["us-west1"; "europe-west1"]]
            _ _ _ _ _ _).
  - eapply NextPage; [reflexivity | reflexivity |].
    eapply LastPage; reflexivity.
  - repeat constructor; do 2 eexists;
      (split; [reflexivity|]); (split; [reflexivity|]);
      repeat constructor.
  - simpl. lia.
  - eapply LastPage; reflexivity.
  - repeat constructor; do 2 eexists;
      (split; [reflexivity|]); (split; [reflexivity|]);
      repeat constructor.
  - simpl. lia.
Defined.

Example get_zones_paged :
  get_zones world_paged 2 (JStr "proj-a") =
    Ok [JStr "europe-west1-c"; JStr "us-east1-b"; JStr "us-west1-b"].
Proof. reflexivity. Qed.

Example get_zones_cut_short :
  get_zones world_paged 1 (JStr "proj-a") = OutOfFuel.
Proof. reflexivity. Qed.

(** ** The users field of disks and addresses *)

Lemma nth_error_length_last {A : Type} (d : A) (l : list A) :
  forall x, nth_error (x :: l) (List.length l) = Some (last (x :: l) d).
Proof.
  induction l as [|y l IH]; intros x.
  - reflexivity.
  - cbn [List.length nth_error]. rewrite IH. reflexivity.
Qed.

Lemma py_index_last {A : Type} (d : A) (l : list A) :
  l <> [] -> py_index l (-1) = Some (last l d).
Proof.
  destruct l as [|x l]; [congruence|]. intros _. unfold py_index.
  change (0 <=? -1)%Z with false. cbv iota.
  assert (H : (Z.of_nat (List.length (x :: l)) + -1)%Z = Z.of_nat (List.length l)).
  { cbn [List.length]. lia. }
  rewrite H.
  destruct (0 <=? Z.of_nat (List.length l))%Z eqn:E; [|lia].
  rewrite Nat2Z.id. apply nth_error_length_last.
Qed.

Lemma split_on_nonempty c s : split_on c s <> [].
Proof.
  destruct s as [|a s]; cbn [split_on]; [discriminate|].
  destruct (Ascii.eqb a c); [discriminate|].
  destruct (split_on c s); discriminate.
Qed.

Lemma last_segment_last s : last_segment s = last (split_on "/" s) "".
Proof.
  unfold last_segment.
  rewrite (py_index_last "" _ (split_on_nonempty _ s)). reflexivity.
Qed.

Lemma split_last_str s : split_last (JStr s) = Ok (JStr (last_segment s)).
Proof.
  unfold split_last, last_segment.
  rewrite (py_index_last "" _ (split_on_nonempty _ s)). reflexivity.
Qed.

Lemma split_on_two c s :
  contains_char c s = true ->
  exists p q ps, split_on c s = p :: q :: ps.
Proof.
  induction s as [|a s IH]; cbn [contains_char split_on]; [discriminate|].
  destruct (Ascii.eqb a c); cbn [orb].
  - intros _. destruct (split_on c s) as [|q ps] eqn:E.
    + exfalso. exact (split_on_nonempty _ _ E).
    + eauto.
  - intros H. destruct (IH H) as (p & q & ps & ->). eauto.
Qed.

Lemma last_split_on_cons c a s :
  contains_char c s = true ->
  last (split_on c (String a s)) "" = last (split_on c s) "".
Proof.
  intros H. destruct (split_on_two _ _ H) as (p & q & ps & E).
  cbn [split_on]. rewrite E.
  destruct (Ascii.eqb a c); reflexivity.
Qed.

Lemma contains_char_append c p u :
  contains_char c u = true -> contains_char c (p ++ u) = true.
Proof.
  intros H. induction p as [|a p IH]; cbn [append contains_char]; [exact H|].
  rewrite IH. apply orb_true_r.
Qed.

(** Behind a text that still holds a '/', whatever precedes it is
    cut away. *)
Lemma last_segment_append p u :
  contains_char "/" u = true ->
  last_segment (p ++ u) = last_segment u.
Proof.
  intros H. rewrite !last_segment_last.
  induction p as [|a p IH]; cbn [append]; [reflexivity|].
  rewrite last_split_on_cons; [exact IH|].
  apply contains_char_append. exact H.
Qed.

Lemma append_assoc (a b c : string) : ((a ++ b) ++ c = a ++ (b ++ c))%string.
Proof. induction a as [|x a IH]; cbn [append]; [|rewrite IH]; reflexivity. Qed.

Lemma concat_snoc sep earlier u :
  exists p, String.concat sep (earlier ++ [u]) = (p ++ u)%string.
Proof.
  induction earlier as [|x l IH].
  - exists "". reflexivity.
  - destruct IH as [p Hp]. cbn [app String.concat].
    destruct (l ++ [u]) as [|y rest] eqn:E.
    + destruct l; discriminate.
    + rewrite Hp. exists (x ++ sep ++ p)%string.
      rewrite !append_assoc. reflexivity.
Qed.

Lemma py_join_strings sep ss :
  py_join sep (map JStr ss) = Ok (String.concat sep ss).
Proof.
  unfold py_join.
  assert (H : rmapM as_str (map JStr ss) = Ok ss).
  { induction ss as [|s ss IH]; cbn [map rmapM as_str rbind];
      [|rewrite IH]; reflexivity. }
  rewrite H. reflexivity.
Qed.

Lemma users_field_strings item users :
  subscript_key item "users" = Ok (JList (map JStr users)) ->
  users_field item = Ok (JStr (last_segment (String.concat "|" users))).
Proof.
  intros H. unfold users_field, py_join_value. rewrite H.
  cbn [rbind py_iter]. rewrite py_join_strings. cbn [rbind].
  apply split_last_str.
Qed.

(** C9, as the code has it: on a disk or address record whose
    "users" is a non-empty list of references, the users field is the
    text behind the last '/' of the references joined with '|', and
    the row printed ends with it.  When the last reference holds a
    '/', that is the text behind the last '/' of the last reference:
    nothing of the earlier references is left. *)
Theorem users_field_last_segment (item : json) (users : list string) :
  subscript_key item "users" = Ok (JList (map JStr users)) ->
  users <> [] ->
  users_field item = Ok (JStr (last_segment (String.concat "|" users))) /\
  (forall zone name status size,
      subscript_key item "zone" = Ok (JStr zone) ->
      subscript_key item "name" = Ok (JStr name) ->
      subscript_key item "status" = Ok (JStr status) ->
      subscript_key item "sizeGb" = Ok (JStr size) ->
      disk_row item =
        Ok (String.concat ","
              [last_segment zone; name; status; size;
               last_segment (String.concat "|" users)])) /\
  (forall region name status address network_tier address_type,
      subscript_key item "region" = Ok (JStr region) ->
      subscript_key item "name" = Ok (JStr name) ->
      subscript_key item "status" = Ok (JStr status) ->
      subscript_key item "address" = Ok (JStr address) ->
      subscript_key item "networkTier" = Ok (JStr network_tier) ->
      subscript_key item "addressType" = Ok (JStr address_type) ->
      address_row item =
        Ok (String.concat ","
              [last_segment region; name; status; address; network_tier;
               address_type; last_segment (String.concat "|" users)])) /\
  (forall earlier u,
      users = earlier ++ [u] ->
      contains_char "/" u = true ->
      last_segment (String.concat "|" users) = last_segment u).
Proof.
  intros Husers _.
  pose proof (users_field_strings _ _ Husers) as Hfield.
  split; [exact Hfield|]. split; [|split].
  - intros zone name status size H1 H2 H3 H4. unfold disk_row.
    rewrite H1, H2, H3, H4, Hfield. cbn [rbind].
    rewrite split_last_str. reflexivity.
  - intros region name status address tier type H1 H2 H3 H4 H5 H6.
    unfold address_row.
    rewrite H1, H2, H3, H4, H5, H6, Hfield. cbn [rbind].
    rewrite split_last_str. reflexivity.
  - intros earlier u -> Hu.
    destruct (concat_snoc "|" earlier u) as [p ->].
    apply last_segment_append. exact Hu.
Qed.

Lemma users_field_last_segment_witness :
  users_field disk_two_users = Ok (JStr "vm-2") /\
  disk_row disk_two_users = Ok "us-east1-b,data-disk,READY,200,vm-2".
Proof.
  pose proof (users_field_last_segment disk_two_users disk_two_users_refs
                eq_refl ltac:(discriminate)) as (Hfield & Hdisk & _ & _).
  split.
  - exact Hfield.
  - exact (Hdisk _ _ _ _ eq_refl eq_refl eq_refl eq_refl).
Defined.

(** C9 as stated fails in its reading of the field: when the last
    reference holds no '/', the text behind the last '/' of the joined
    references runs across the '|' and keeps the last segment of the
    reference before it. *)
Lemma users_field_keeps_earlier_segment :
  users_field disk_short_last_user = Ok (JStr "vm-1|vm-2") /\
  disk_row disk_short_last_user = Ok "us-east1-b,data-disk,READY,200,vm-1|vm-2" /\
  last_segment "vm-2" = "vm-2" /\
  "vm-1|vm-2" <> last_segment "vm-2".
Proof. repeat split. discriminate. Qed.

(** ** A whole run *)

(** C3, on the code: in the run over one project with the zones
    us-east1-b (one instance without an external address) and
    us-central1-a (no instance) and no region, where the SQL listing
    of the project carries no "items" key, the output stops behind
    the SQL banner: [sql_instance_report] raises TypeError, and
    neither the Memorystore banner, the API-key banner nor the END
    banner is printed. *)
Theorem main_scenario_stops_at_sql (py_repr : json -> string) :
  main (scenario sql_listing_empty) py_repr 1 =
    (["======================== demo-project";
      "==== Compute Engine ====";
      "-- Instances --";
      "us-east1-b,vm-1,RUNNING,e2-medium,10.0.0.2,none";
      "-- Disks --";
      "-- Addresses --";
      "==== SQL Engine ===="],
     Raise TypeError).
Proof. reflexivity. Qed.

(** The same run when the SQL listing carries an explicit empty
    "items" list: every banner is printed, down to END. *)
Lemma main_scenario_explicit_empty_items (py_repr : json -> string) :
  main (scenario (JDict [("items", JList [])])) py_repr 1 =
    (["======================== demo-project";
      "==== Compute Engine ====";
      "-- Instances --";
      "us-east1-b,vm-1,RUNNING,e2-medium,10.0.0.2,none";
      "-- Disks --";
      "-- Addresses --";
      "==== SQL Engine ====";
      "==== Memorystore ====";
      "==== API Keys ====";
      "======================== END"],
     Ok tt).
Proof. reflexivity. Qed.

(** The compute report guards its loop with [if items:], and the
    listing helper of the SQL report returns None for the same kind
    of response: the two differ by the guard only. *)
Lemma print_rows_none row : print_rows row JNull = ([], Ok tt).
Proof. reflexivity. Qed.

Lemma print_each_none row : print_each row JNull = ([], Raise TypeError).
Proof. reflexivity. Qed.

(** ** No handler above the reporters *)

Lemma bind_snd_ok {A B : Type} (m : io A) (f : A -> io B) (a : A) :
  snd m = Ok a -> snd (bind m f) = snd (f a).
Proof.
  destruct m as [out r]; simpl; intros ->. destruct (f a); reflexivity.
Qed.

Lemma bind_snd_raise {A B : Type} (m : io A) (f : A -> io B) (e : exn) :
  snd m = Raise e -> snd (bind m f) = Raise e.
Proof. intros H. rewrite (bind_raises _ _ _ H). reflexivity. Qed.

(** An exception of the SQL report is the outcome of the report of
    the project. *)
Lemma project_report_sql_raises w py_repr fuel token project id e :
  subscript_key project "projectId" = Ok id ->
  snd (compute_instance_report w fuel id) = Ok tt ->
  snd (sql_instance_report w id) = Raise e ->
  snd (project_report w py_repr fuel token project) = Raise e.
Proof.
  intros Hid Hc Hs. unfold project_report. rewrite Hid.
  rewrite !bind_lift_ok, bind_print. cbn [snd].
  rewrite (bind_snd_ok _ _ tt Hc).
  apply bind_snd_raise. exact Hs.
Qed.

(** An exception of the report of a project ends the loop of [main]:
    the projects behind it are not reported. *)
Lemma for_each_raises {A : Type} (body : A -> io unit) done x rest e :
  Forall (fun y => snd (body y) = Ok tt) done ->
  snd (body x) = Raise e ->
  snd (for_each (done ++ x :: rest) body) = Raise e.
Proof.
  induction 1 as [|y done Hy _ IH]; intros Hx; cbn [app for_each].
  - apply bind_snd_raise. exact Hx.
  - rewrite (bind_snd_ok _ _ tt Hy). apply IH. exact Hx.
Qed.

Lemma main_raises w py_repr fuel token projects done project rest e :
  create_token w = Ok token ->
  get_projects w fuel = Ok projects ->
  projects = done ++ project :: rest ->
  Forall (fun p => snd (project_report w py_repr fuel token p) = Ok tt) done ->
  snd (project_report w py_repr fuel token project) = Raise e ->
  snd (main w py_repr fuel) = Raise e.
Proof.
  intros Ht Hp -> Hdone Hraise. unfold main.
  rewrite Ht, bind_lift_ok, Hp, bind_lift_ok.
  apply bind_snd_raise. apply for_each_raises; assumption.
Qed.

(** * Further properties of the script *)

(** ** Rows of the compute report *)

Lemma subscript_index_head x l : subscript_index (JList (x :: l)) 0 = Ok x.
Proof. reflexivity. Qed.

(** X1: [get_external_ip] looks at the first access config of the
    first interface only.  Whatever the other interfaces and access
    configs hold, the result is the "natIP" of that one config, or
    "none" when it has none. *)
Theorem get_external_ip_first_config_only (d nic ac : list (string * json))
    (nics acs : list json) :
  dict_get "networkInterfaces" d = Some (JList (JDict nic :: nics)) ->
  dict_get "accessConfigs" nic = Some (JList (JDict ac :: acs)) ->
  get_external_ip (JDict d) =
    Ok (match dict_get "natIP" ac with
        | Some v => v
        | None => JStr "none"
        end).
Proof.
  intros H1 H2. rewrite get_external_ip_outcome. unfold nat_ip_path.
  cbn [subscript_key]. rewrite H1. cbn [rbind].
  rewrite subscript_index_head. cbn [rbind subscript_key]. rewrite H2.
  cbn [rbind]. rewrite subscript_index_head. cbn [rbind subscript_key].
  destruct (dict_get "natIP" ac); reflexivity.
Qed.

Lemma get_external_ip_first_config_only_witness :
  get_external_ip
    (JDict [("networkInterfaces",
             JList [JDict [("accessConfigs",
                            JList [JDict [("name", JStr "External NAT")]])];
                    JDict [("accessConfigs",
                            JList [JDict [("natIP", JStr "35.1.2.3")]])]])]) =
  Ok (JStr "none").
Proof.
  exact (get_external_ip_first_config_only
           [("networkInterfaces",
             JList [JDict [("accessConfigs",
                            JList [JDict [("name", JStr "External NAT")]])];
                    JDict [("accessConfigs",
                            JList [JDict [("natIP", JStr "35.1.2.3")]])]])]
           [("accessConfigs", JList [JDict [("name", JStr "External NAT")]])]
           [("name", JStr "External NAT")]
           [JDict [("accessConfigs", JList [JDict [("natIP", JStr "35.1.2.3")]])]]
           [] eq_refl eq_refl).
Defined.

(** X2: the row of a well-formed instance is
    zone,name,status,machine type,internal address,external address,
    with the zone and the machine type cut to the text behind their
    last '/', and "none" for an instance without external address. *)
Theorem instance_row_record (item : json) (r : compute_instance) :
  instance_record item r ->
  instance_row item = Ok (instance_line r).
Proof.
  intros (H1 & H2 & H3 & H4 & nic & nics & H5 & H6 & H7).
  assert (Hext : get_external_ip item =
                 Ok (JStr match ci_nat_ip r with Some ip => ip | None => "none" end)).
  { rewrite get_external_ip_outcome. unfold nat_ip_path. rewrite H5.
    cbn [rbind]. rewrite subscript_index_head. cbn [rbind subscript_key].
    destruct (ci_nat_ip r) as [ip|].
    - destruct H7 as (ac & acs & Ha & Hn). rewrite Ha. cbn [rbind].
      rewrite subscript_index_head. cbn [rbind subscript_key]. rewrite Hn.
      reflexivity.
    - destruct H7 as [Ha | (ac & acs & Ha & Hn)]; rewrite Ha; cbn [rbind].
      + reflexivity.
      + rewrite subscript_index_head. cbn [rbind subscript_key]. rewrite Hn.
        reflexivity. }
  unfold instance_row. rewrite H1, H2, H3, H4, H5, Hext. cbn [rbind].
  rewrite !split_last_str, subscript_index_head. cbn [rbind subscript_key].
  rewrite H6. reflexivity.
Qed.

Lemma instance_row_record_witness :
  instance_row instance_external =
    Ok "us-east1-b,web-1,RUNNING,e2-small,10.0.0.3,34.9.8.7" /\
  instance_row instance_internal_only =
    Ok "us-east1-b,vm-1,RUNNING,e2-medium,10.0.0.2,none".
Proof.
  split.
  - apply (instance_row_record instance_external
             (ComputeInstance "projects/demo-project/zones/us-east1-b" "web-1"
                "RUNNING"
                "projects/demo-project/zones/us-east1-b/machineTypes/e2-small"
                "10.0.0.3" (Some "34.9.8.7"))).
    repeat split. do 2 eexists. repeat split. do 2 eexists. split; reflexivity.
  - apply (instance_row_record instance_internal_only
             (ComputeInstance
                "https://www.googleapis.com/compute/v1/projects/demo-project/zones/us-east1-b"
                "vm-1" "RUNNING"
                "https://www.googleapis.com/compute/v1/projects/demo-project/zones/us-east1-b/machineTypes/e2-medium"
                "10.0.0.2" None)).
    repeat split. do 2 eexists. repeat split. left. reflexivity.
Defined.

(** X3: the sentinel of [get_external_ip] does not save a record
    without "networkInterfaces": the row reads the internal address
    first, so [instance_row] raises KeyError although
    [get_external_ip] alone returns "none" on the same record. *)
Theorem instance_row_without_interfaces (d : list (string * json))
    (zone name status machine_type : string) :
  dict_get "zone" d = Some (JStr zone) ->
  dict_get "name" d = Some (JStr name) ->
  dict_get "status" d = Some (JStr status) ->
  dict_get "machineType" d = Some (JStr machine_type) ->
  dict_get "networkInterfaces" d = None ->
  instance_row (JDict d) = Raise KeyError /\
  get_external_ip (JDict d) = Ok (JStr "none").
Proof.
  intros H1 H2 H3 H4 H5. split.
  - unfold instance_row. cbn [subscript_key]. rewrite H1, H2, H3, H4, H5.
    cbn [rbind]. rewrite !split_last_str. reflexivity.
  - rewrite get_external_ip_outcome. unfold nat_ip_path.
    cbn [subscript_key]. rewrite H5. reflexivity.
Qed.

Lemma instance_row_without_interfaces_witness :
  instance_row instance_no_interfaces = Raise KeyError /\
  get_external_ip instance_no_interfaces = Ok (JStr "none").
Proof.
  unfold instance_no_interfaces.
  apply (instance_row_without_interfaces _
           "projects/demo-project/zones/us-east1-b" "ghost" "TERMINATED"
           "projects/demo-project/zones/us-east1-b/machineTypes/e2-small");
    reflexivity.
Defined.

(** X4: a disk or address record without a "users" key (a disk that
    is attached to nothing) has no row: [disk_row] and [address_row]
    raise KeyError once the fields before "users" are read. *)
Theorem rows_without_users (d : list (string * json)) :
  dict_get "users" d = None ->
  (forall zone name status size,
      dict_get "zone" d = Some (JStr zone) ->
      dict_get "name" d = Some (JStr name) ->
      dict_get "status" d = Some (JStr status) ->
      dict_get "sizeGb" d = Some (JStr size) ->
      disk_row (JDict d) = Raise KeyError) /\
  (forall region name status address network_tier address_type,
      dict_get "region" d = Some (JStr region) ->
      dict_get "name" d = Some (JStr name) ->
      dict_get "status" d = Some (JStr status) ->
      dict_get "address" d = Some (JStr address) ->
      dict_get "networkTier" d = Some (JStr network_tier) ->
      dict_get "addressType" d = Some (JStr address_type) ->
      address_row (JDict d) = Raise KeyError).
Proof.
  intros Hu. split.
  - intros zone name status size H1 H2 H3 H4.
    unfold disk_row, users_field. cbn [subscript_key].
    rewrite H1, H2, H3, H4, Hu. cbn [rbind]. rewrite split_last_str.
    reflexivity.
  - intros region name status address tier type H1 H2 H3 H4 H5 H6.
    unfold address_row, users_field. cbn [subscript_key].
    rewrite H1, H2, H3, H4, H5, H6, Hu. cbn [rbind]. rewrite split_last_str.
    reflexivity.
Qed.

Lemma rows_without_users_witness :
  disk_row disk_unattached = Raise KeyError.
Proof.
  apply (proj1 (rows_without_users
                  [("zone", JStr "projects/demo-project/zones/us-east1-b");
                   ("name", JStr "spare-disk");
                   ("status", JStr "READY");
                   ("sizeGb", JStr "50")] eq_refl)
           "projects/demo-project/zones/us-east1-b" "spare-disk" "READY" "50");
    reflexivity.
Defined.

(** X5: with an empty "users" list the users field is the empty
    string, so the row of the disk ends with a comma. *)
Theorem disk_row_empty_users (item : json) (zone name status size : string) :
  subscript_key item "users" = Ok (JList []) ->
  subscript_key item "zone" = Ok (JStr zone) ->
  subscript_key item "name" = Ok (JStr name) ->
  subscript_key item "status" = Ok (JStr status) ->
  subscript_key item "sizeGb" = Ok (JStr size) ->
  users_field item = Ok (JStr "") /\
  disk_row item =
    Ok (last_segment zone ++ "," ++ name ++ "," ++ status ++ "," ++ size ++ ",")%string.
Proof.
  intros Hu H1 H2 H3 H4.
  assert (Hf : users_field item = Ok (JStr "")).
  { unfold users_field. rewrite Hu. reflexivity. }
  split; [exact Hf|].
  unfold disk_row. rewrite H1, H2, H3, H4, Hf. cbn [rbind].
  rewrite split_last_str. reflexivity.
Qed.

Lemma disk_row_empty_users_witness :
  disk_row (JDict [("zone", JStr "zones/us-east1-b"); ("name", JStr "spare-disk");
                   ("status", JStr "READY"); ("sizeGb", JStr "50");
                   ("users", JList [])]) =
    Ok "us-east1-b,spare-disk,READY,50,".
Proof.
  apply (disk_row_empty_users _ "zones/us-east1-b" "spare-disk" "READY" "50");
    reflexivity.
Defined.

(** ** The text behind the last '/' *)

Lemma split_on_pieces c s :
  Forall (fun p => contains_char c p = false) (split_on c s).
Proof.
  induction s as [|a s IH]; cbn [split_on].
  - repeat constructor.
  - destruct (Ascii.eqb a c) eqn:E.
    + constructor; [reflexivity | exact IH].
    + destruct (split_on c s) as [|p ps].
      * constructor; [|constructor]. cbn [contains_char]. rewrite E. reflexivity.
      * inversion IH; subst. constructor; [|assumption].
        cbn [contains_char]. rewrite E. assumption.
Qed.

(** Joining the pieces of a split with the separator gives the text
    back. *)
Lemma concat_split_on c s :
  String.concat (String c "") (split_on c s) = s.
Proof.
  induction s as [|a s IH]; cbn [split_on]; [reflexivity|].
  destruct (Ascii.eqb a c) eqn:E.
  - apply Ascii.eqb_eq in E. subst a.
    destruct (split_on c s) as [|p ps] eqn:S.
    + exfalso. exact (split_on_nonempty _ _ S).
    + change (String.concat (String c "") ("" :: p :: ps))
        with ("" ++ String c "" ++ String.concat (String c "") (p :: ps))%string.
      rewrite IH. reflexivity.
  - destruct (split_on c s) as [|p ps] eqn:S.
    + exfalso. exact (split_on_nonempty _ _ S).
    + destruct ps as [|q qs].
      * cbn [String.concat] in *. rewrite IH. reflexivity.
      * change (String.concat (String c "") (String a p :: q :: qs))
          with (String a (p ++ String c "" ++ String.concat (String c "") (q :: qs)))%string.
        change (String.concat (String c "") (p :: q :: qs))
          with (p ++ String c "" ++ String.concat (String c "") (q :: qs))%string in IH.
        rewrite IH. reflexivity.
Qed.

(** X6: the column that [.split('/')[-1]] leaves of a string (zone,
    machine type, region, users) is a suffix of the string and holds
    no '/'. *)
Theorem split_last_suffix_without_slash (s : string) :
  exists t p,
    split_last (JStr s) = Ok (JStr t) /\
    s = (p ++ t)%string /\
    contains_char "/" t = false.
Proof.
  exists (last_segment s).
  destruct (exists_last (split_on_nonempty "/"%char s)) as (init & t & Hsplit).
  assert (Ht : last_segment s = t).
  { rewrite last_segment_last, Hsplit. apply last_last. }
  destruct (concat_snoc "/" init t) as [p Hp].
  exists p. split; [apply split_last_str|]. split.
  - rewrite Ht, <- Hp, <- Hsplit. symmetry. apply concat_split_on.
  - rewrite Ht. pose proof (split_on_pieces "/"%char s) as Hall.
    rewrite Hsplit in Hall. apply Forall_app in Hall. destruct Hall as [_ Hl].
    inversion Hl; assumption.
Qed.

(** ** Sections of the compute report *)

Lemma for_each_outputs {A : Type} (body : A -> io unit) l outs :
  Forall2 (fun x out => body x = (out, Ok tt)) l outs ->
  for_each l body = (List.concat outs, Ok tt).
Proof.
  induction 1 as [|x out l outs Hx _ IH]; cbn [for_each List.concat].
  - reflexivity.
  - rewrite Hx, bind_outcome, IH. reflexivity.
Qed.

Lemma listing_rows_printed row resp lines :
  listing_rows row resp lines ->
  bind (lift (rbind (of_reply resp) (fun res => items_or_none res)))
       (fun items => print_rows row items) = (lines, Ok tt).
Proof.
  intros (d & -> & [[Hnone ->] | (elems & Hitems & Hrows)]);
    cbn [of_reply rbind]; rewrite items_or_none_dict.
  - rewrite Hnone, bind_lift_ok. reflexivity.
  - rewrite Hitems, bind_lift_ok. unfold print_rows.
    destruct elems as [|x elems].
    + inversion Hrows. reflexivity.
    + cbn [py_truthy]. rewrite print_each_list.
      apply print_lines_ok. exact Hrows.
Qed.

Lemma section_rows w row (mk : json -> request) names lines :
  Forall2 (fun name ls => listing_rows row (execute w (mk name)) ls) names lines ->
  for_each names
    (fun name =>
       bind (lift (rbind (of_reply (execute w (mk name)))
                         (fun res => items_or_none res)))
            (fun items => print_rows row items)) = (List.concat lines, Ok tt).
Proof.
  intros H. apply for_each_outputs.
  induction H as [|name ls names lines Hn _ IH]; constructor.
  - apply listing_rows_printed. exact Hn.
  - exact IH.
Qed.

(** X7: the compute report is made of three sections in a fixed
    order.  With the zones and regions enumerated, it prints the two
    opening banners, the instance rows of every zone in the order of
    the zones, the Disks banner and the disk rows of every zone, the
    Addresses banner and the address rows of every region; a zone or
    region whose listing has no "items" contributes no line. *)
Theorem compute_report_sections (w : world) (fuel : nat) (project : json)
    (zones regions : list json)
    (instance_lines disk_lines address_lines : list (list string)) :
  get_zones w fuel project = Ok zones ->
  get_regions w fuel project = Ok regions ->
  Forall2 (fun zone ls =>
             listing_rows instance_row
               (execute w (Request (InstancesList project zone) None)) ls)
          zones instance_lines ->
  Forall2 (fun zone ls =>
             listing_rows disk_row
               (execute w (Request (DisksList project zone) None)) ls)
          zones disk_lines ->
  Forall2 (fun region ls =>
             listing_rows address_row
               (execute w (Request (AddressesList project region) None)) ls)
          regions address_lines ->
  compute_instance_report w fuel project =
    ("==== Compute Engine ====" :: "-- Instances --" ::
       List.concat instance_lines ++
       "-- Disks --" :: List.concat disk_lines ++
       "-- Addresses --" :: List.concat address_lines,
     Ok tt).
Proof.
  intros Hz Hr Hi Hd Ha.
  unfold compute_instance_report, list_instances, list_disks, list_addresses.
  pose proof (section_rows w instance_row
                (fun zone => Request (InstancesList project zone) None) _ _ Hi)
    as Si.
  pose proof (section_rows w disk_row
                (fun zone => Request (DisksList project zone) None) _ _ Hd)
    as Sd.
  pose proof (section_rows w address_row
                (fun region => Request (AddressesList project region) None) _ _ Ha)
    as Sa.
  cbv beta in Si, Sd, Sa.
  rewrite Hz, Hr.
  repeat (first [ rewrite bind_print | rewrite bind_lift_ok
                | rewrite Si | rewrite Sd | rewrite Sa
                | rewrite bind_outcome ];
          cbn [fst snd]).
  reflexivity.
Qed.

Lemma compute_report_sections_witness :
  compute_instance_report world_compute 1 (JStr "demo-project") =
    (["==== Compute Engine ====";
      "-- Instances --";
      "us-east1-b,web-1,RUNNING,e2-small,10.0.0.3,34.9.8.7";
      "-- Disks --";
      "us-east1-b,data-disk,READY,200,vm-2";
      "-- Addresses --"], Ok tt).
Proof.
  apply (compute_report_sections world_compute 1 (JStr "demo-project")
           [JStr "us-east1-b"] [JStr "us-east1"]
           [["us-east1-b,web-1,RUNNING,e2-small,10.0.0.3,34.9.8.7"]]
           [["us-east1-b,data-disk,READY,200,vm-2"]]
           [[]]).
  - reflexivity.
  - reflexivity.
  - constructor; [|constructor]. eexists. split; [reflexivity|].
    right. eexists. split; reflexivity.
  - constructor; [|constructor]. eexists. split; [reflexivity|].
    right. eexists. split; reflexivity.
  - constructor; [|constructor]. eexists. split; [reflexivity|].
    left. split; reflexivity.
Defined.

(** X8: a zone listing without an "items" key (a project that has no
    zone to show) is not an empty enumeration: [get_zones] raises
    KeyError, and the compute report stops behind its first two
    banners. *)
Theorem zones_without_items (w : world) (fuel : nat) (project : json)
    (d : list (string * json)) :
  execute w (Request (ZonesList project) None) = Reply (JDict d) ->
  dict_get "items" d = None ->
  0 < fuel ->
  get_zones w fuel project = Raise KeyError /\
  compute_instance_report w fuel project =
    (["==== Compute Engine ===="; "-- Instances --"], Raise KeyError).
Proof.
  intros Hexec Hitems Hfuel.
  assert (Hz : get_zones w fuel project = Raise KeyError).
  { destruct fuel as [|fuel]; [lia|]. unfold get_zones.
    cbn [names_loop]. rewrite Hexec. cbn [of_reply rbind subscript_key].
    rewrite Hitems. reflexivity. }
  split; [exact Hz|].
  unfold compute_instance_report. rewrite Hz. reflexivity.
Qed.

Lemma zones_without_items_witness :
  compute_instance_report world_no_items 1 (JStr "demo-project") =
    (["==== Compute Engine ===="; "-- Instances --"], Raise KeyError).
Proof.
  apply (zones_without_items world_no_items 1 (JStr "demo-project")
           [("kind", JStr "compute#zoneList")]); [reflexivity | reflexivity | lia].
Defined.

(** ** Failing calls and odd bodies *)

(** X9: the SQL report and the API-key report print their banner
    before they call the provider, and handle nothing: when the call
    fails, the banner is the only line printed and the exception of
    the call leaves the report. *)
Theorem banner_before_failed_call (w : world) (token : string) (project : json)
    (e_sql e_http : exn) :
  execute w (Request (SqlInstancesList project) None) = Fails e_sql ->
  http_get_json w project token = Fails e_http ->
  sql_instance_report w project = (["==== SQL Engine ===="], Raise e_sql) /\
  api_keys_report w token project = (["==== API Keys ===="], Raise e_http).
Proof.
  intros Hs Hh. split.
  - unfold sql_instance_report, list_sql_instances. rewrite Hs. reflexivity.
  - unfold api_keys_report. rewrite Hh. reflexivity.
Qed.

Lemma banner_before_failed_call_witness :
  sql_instance_report world_down (JStr "demo-project") =
    (["==== SQL Engine ===="], Raise (HttpError 503)) /\
  api_keys_report world_down "ya29.token" (JStr "demo-project") =
    (["==== API Keys ===="], Raise (OtherError "ConnectionError")).
Proof.
  apply (banner_before_failed_call world_down "ya29.token" (JStr "demo-project"));
    reflexivity.
Defined.

(** X10: an API-key body without "error" and without "keys" is read
    in two ways: the empty dict is skipped by [if items:] and only the
    banner is printed; any other dict reaches [items["keys"]] and the
    report raises KeyError behind its banner. *)
Theorem api_keys_report_without_keys (w : world) (token : string)
    (project : json) (d : list (string * json)) :
  http_get_json w project token = Reply (JDict d) ->
  dict_get "error" d = None ->
  dict_get "keys" d = None ->
  api_keys_report w token project =
    (["==== API Keys ===="],
     match d with
     | [] => Ok tt
     | _ :: _ => Raise KeyError
     end).
Proof.
  intros Hget Herr Hkeys. unfold api_keys_report.
  rewrite bind_print, Hget. cbn [of_reply]. rewrite bind_lift_ok.
  cbn [py_in]. rewrite bind_lift_ok, Herr. cbn [negb].
  destruct d as [|kv d']; [reflexivity|].
  cbn [py_truthy subscript_key]. rewrite Hkeys. reflexivity.
Qed.

Lemma api_keys_report_without_keys_witness :
  api_keys_report (world_keys (JDict [("nextPageToken", JStr "n1")]))
                  "ya29.token" (JStr "demo-project") =
    (["==== API Keys ===="], Raise KeyError).
Proof.
  apply (api_keys_report_without_keys
           (world_keys (JDict [("nextPageToken", JStr "n1")]))
           "ya29.token" (JStr "demo-project") [("nextPageToken", JStr "n1")]);
    reflexivity.
Defined.

(** ** Memorystore rows *)

Lemma for_each_print {A : Type} (line : A -> string) (l : list A) :
  for_each l (fun x => print (line x)) = (map line l, Ok tt).
Proof.
  induction l as [|x l IH]; cbn [for_each map]; [reflexivity|].
  rewrite bind_print, IH. reflexivity.
Qed.

(** X11: when the listing call returns a pager, the Memorystore
    report prints its banner and one row per instance the pager
    yields, in order.  The handler of [list_redis_instances] covers
    the call only: an exception the pager raises while it is iterated
    leaves the report, behind the rows already printed. *)
Theorem redis_report_rows (w : world) (project : json) (p : pager) :
  redis_list_instances w project = Reply p ->
  redis_instance_report w project =
    ("==== Memorystore ====" :: map redis_row (pager_items p),
     match pager_error p with
     | Some e => Raise e
     | None => Ok tt
     end).
Proof.
  intros H. unfold redis_instance_report, list_redis_instances.
  rewrite H. cbn [pager_truthy]. rewrite bind_print, for_each_print.
  rewrite bind_outcome. cbn [fst snd].
  destruct (pager_error p); cbn [lift ret fst snd]; rewrite app_nil_r;
    reflexivity.
Qed.

Lemma redis_report_rows_witness :
  redis_instance_report
    (world_redis (Pager [redis_a; redis_b] (Some (HttpError 503))))
    (JStr "demo-project") =
    (["==== Memorystore ====";
      "us-east1-b,cache-a,State.READY,REDIS_6_X,10.2.0.3,Tier.BASIC,1";
      "us-east1-c,cache-b,State.READY,REDIS_6_X,10.2.0.4,Tier.STANDARD_HA,5"],
     Raise (HttpError 503)).
Proof.
  apply (redis_report_rows
           (world_redis (Pager [redis_a; redis_b] (Some (HttpError 503))))
           (JStr "demo-project")
           (Pager [redis_a; redis_b] (Some (HttpError 503)))).
  reflexivity.
Defined.

(** ** Projects and the whole run *)

(** X12: the report of one project is its banner, made of 24 '='
    signs, a space and the project id, followed by the output of the
    compute, SQL, Memorystore and API-key reports, in that order. *)
Theorem project_report_order (w : world) (py_repr : json -> string)
    (fuel : nat) (token : string) (project : json) (id : string)
    (compute sql redis keys : list string) :
  subscript_key project "projectId" = Ok (JStr id) ->
  compute_instance_report w fuel (JStr id) = (compute, Ok tt) ->
  sql_instance_report w (JStr id) = (sql, Ok tt) ->
  redis_instance_report w (JStr id) = (redis, Ok tt) ->
  api_keys_report w token (JStr id) = (keys, Ok tt) ->
  project_report w py_repr fuel token project =
    (("======================== " ++ id)%string ::
       compute ++ sql ++ redis ++ keys, Ok tt).
Proof.
  intros Hid Hc Hs Hr Hk. unfold project_report.
  rewrite Hid, !bind_lift_ok, bind_print, Hc, Hs, Hr, Hk.
  rewrite !bind_outcome. cbn [fst snd py_format]. reflexivity.
Qed.

Lemma project_report_order_witness :
  project_report (scenario (JDict [("items", JList [])])) (fun _ => "") 1
                 "ya29.token" (JDict [("projectId", JStr "demo-project")]) =
    ("======================== demo-project" ::
       scenario_compute_lines ++ ["==== SQL Engine ===="] ++
       ["==== Memorystore ===="] ++ ["==== API Keys ===="], Ok tt).
Proof.
  apply (project_report_order (scenario (JDict [("items", JList [])]))
           (fun _ => "") 1 "ya29.token"
           (JDict [("projectId", JStr "demo-project")]) "demo-project");
    reflexivity.
Defined.

Lemma for_each_stops {A : Type} (body : A -> io unit) done outs x out rest r :
  Forall2 (fun y o => body y = (o, Ok tt)) done outs ->
  body x = (out, r) ->
  r <> Ok tt ->
  for_each (done ++ x :: rest) body = (List.concat outs ++ out, r).
Proof.
  intros Hdone Hx Hr.
  induction Hdone as [|y o done outs Hy _ IH]; cbn [app for_each List.concat].
  - rewrite Hx, bind_outcome.
    destruct r as [[]| |]; [congruence | reflexivity | reflexivity].
  - rewrite Hy, bind_outcome, IH. cbn [fst snd]. rewrite app_assoc.
    reflexivity.
Qed.

(** X13: a run in which every project is reported prints the reports
    of the projects in the order in which [get_projects] returned
    them, then the END banner, and nothing else. *)
Theorem main_all_projects (w : world) (py_repr : json -> string) (fuel : nat)
    (token : string) (projects : list json) (outs : list (list string)) :
  create_token w = Ok token ->
  get_projects w fuel = Ok projects ->
  Forall2 (fun p out => project_report w py_repr fuel token p = (out, Ok tt))
          projects outs ->
  main w py_repr fuel =
    (List.concat outs ++ ["======================== END"], Ok tt).
Proof.
  intros Ht Hp Hall. unfold main.
  rewrite Ht, bind_lift_ok, Hp, bind_lift_ok.
  rewrite (for_each_outputs _ _ _ Hall), bind_outcome. reflexivity.
Qed.

Lemma main_all_projects_witness :
  main (scenario (JDict [("items", JList [])])) (fun _ => "") 1 =
    (List.concat
       [("======================== demo-project" ::
           scenario_compute_lines ++
           ["==== SQL Engine ===="; "==== Memorystore ===="; "==== API Keys ===="])]
     ++ ["======================== END"], Ok tt).
Proof.
  apply (main_all_projects (scenario (JDict [("items", JList [])]))
           (fun _ => "") 1 "ya29.token"
           [JDict [("projectId", JStr "demo-project")]]).
  - reflexivity.
  - reflexivity.
  - constructor; [reflexivity | constructor].
Defined.

(** X14: there is no isolation between projects.  When the report of
    a project raises, the run ends there with that exception: the
    output is what was printed up to the exception, the projects
    behind it are not reported and the END banner is not printed. *)
Theorem main_aborts_at_failing_project (w : world) (py_repr : json -> string)
    (fuel : nat) (token : string) (done rest : list json) (project : json)
    (outs : list (list string)) (out : list string) (e : exn) :
  create_token w = Ok token ->
  get_projects w fuel = Ok (done ++ project :: rest) ->
  Forall2 (fun p o => project_report w py_repr fuel token p = (o, Ok tt))
          done outs ->
  project_report w py_repr fuel token project = (out, Raise e) ->
  main w py_repr fuel = (List.concat outs ++ out, Raise e).
Proof.
  intros Ht Hp Hdone Hfail. unfold main.
  rewrite Ht, bind_lift_ok, Hp, bind_lift_ok.
  rewrite (for_each_stops _ _ _ _ _ rest _ Hdone Hfail); [|discriminate].
  reflexivity.
Qed.

Lemma main_aborts_at_failing_project_witness :
  main world_paged (fun _ => "") 2 =
    (["======================== proj-b";
      "==== Compute Engine ===="; "-- Instances --"; "-- Disks --";
      "-- Addresses --"; "==== SQL Engine ===="],
     Raise TypeError).
Proof.
  apply (main_aborts_at_failing_project world_paged (fun _ => "") 2 "ya29.token"
           [] [JDict [("projectId", JStr "proj-a")];
               JDict [("projectId", JStr "proj-c")]]
           (JDict [("projectId", JStr "proj-b")]) []).
  - reflexivity.
  - reflexivity.
  - constructor.
  - reflexivity.
Defined.

(** X15: the access token is fetched before anything else.  When the
    credential tool fails, the run ends with its exception and
    prints nothing, whatever the providers would have answered. *)
Theorem main_token_failure (w : world) (py_repr : json -> string)
    (fuel : nat) (e : exn) :
  gcloud_print_access_token w = Fails e ->
  main w py_repr fuel = ([], Raise e).
Proof.
  intros H. unfold main, create_token. rewrite H. reflexivity.
Qed.

Lemma main_token_failure_witness :
  main world_down (fun _ => "") 5 = ([], Raise (CalledProcessError 1)).
Proof.
  apply (main_token_failure world_down (fun _ => "") 5 (CalledProcessError 1)).
  reflexivity.
Defined.

(** ** Pagination that fails or never ends *)

Lemma get_projects_loop_fails w req pages e :
  fails_after w req pages e ->
  forall lists fuel acc,
    Forall2 page_projects pages lists ->
    List.length pages < fuel ->
    get_projects_loop w fuel req acc = Raise e.
Proof.
  induction 1 as [req e Hexec | req resp req' rest e Hexec Hnext _ IH];
    intros lists fuel acc Hpages Hfuel;
    (destruct fuel as [|fuel]; [simpl in Hfuel; lia|]);
    cbn [get_projects_loop]; rewrite Hexec; cbn [of_reply rbind].
  - reflexivity.
  - inversion Hpages as [|p l ps ls Hp Hrest]; subst.
    pose proof (page_projects_step _ _ Hp) as Hstep.
    destruct (py_get resp "projects" (JList [])) as [page| |];
      try discriminate; cbn [rbind] in Hstep |- *; rewrite Hstep.
    cbn [rbind]. rewrite Hnext.
    apply (IH ls); [exact Hrest | simpl in Hfuel; lia].
Qed.

(** X16: a page of projects that cannot be fetched is fatal and
    nothing is kept of the pages before it: [get_projects] raises the
    exception of the failed call, and [main] ends with it without
    having printed a line. *)
Theorem get_projects_failed_page (w : world) (py_repr : json -> string)
    (fuel : nat) (pages : list json) (lists : list (list json)) (e : exn)
    (token : string) :
  fails_after w (Request ProjectsList None) pages e ->
  Forall2 page_projects pages lists ->
  List.length pages < fuel ->
  create_token w = Ok token ->
  get_projects w fuel = Raise e /\
  main w py_repr fuel = ([], Raise e).
Proof.
  intros Hfail Hpages Hfuel Ht.
  assert (Hg : get_projects w fuel = Raise e).
  { exact (get_projects_loop_fails _ _ _ _ Hfail lists fuel [] Hpages Hfuel). }
  split; [exact Hg|].
  unfold main. rewrite Ht, bind_lift_ok, Hg. reflexivity.
Qed.

Lemma get_projects_failed_page_witness :
  get_projects world_broken 2 = Raise (HttpError 500) /\
  main world_broken (fun _ => "") 2 = ([], Raise (HttpError 500)).
Proof.
  apply (get_projects_failed_page world_broken (fun _ => "") 2
           [JDict [("projects", JList [JDict [("projectId", JStr "proj-a")]]);
                   ("nextPageToken", JStr "p2")]]
           [[JDict [("projectId", JStr "proj-a")]]]
           (HttpError 500) "ya29.token").
  - eapply FailsLater; [reflexivity | reflexivity |].
    apply FailsNow. reflexivity.
  - constructor; [|constructor]. eexists. split; [reflexivity|].
    left. reflexivity.
  - simpl. lia.
  - reflexivity.
Defined.

(** X17: the loop of [get_projects] has no bound of its own.  With a
    provider that answers every request with a page of projects and a
    further request, no number of iterations ends it. *)
Theorem get_projects_never_ends (w : world) :
  (forall req, exists resp projects,
      execute w req = Reply resp /\
      page_projects resp projects /\
      list_next w req resp <> None) ->
  forall fuel, get_projects w fuel = OutOfFuel.
Proof.
  intros Hw fuel. unfold get_projects.
  generalize (Request ProjectsList None) as req, (@nil json) as acc.
  induction fuel as [|fuel IH]; intros req acc; [reflexivity|].
  destruct (Hw req) as (resp & projects & Hexec & Hp & Hnext).
  pose proof (page_projects_step _ _ Hp) as Hstep.
  cbn [get_projects_loop]. rewrite Hexec. cbn [of_reply rbind].
  destruct (py_get resp "projects" (JList [])) as [page| |];
    try discriminate; cbn [rbind] in Hstep |- *; rewrite Hstep.
  cbn [rbind]. destruct (list_next w req resp) as [req'|]; [|congruence].
  apply IH.
Qed.

Lemma get_projects_never_ends_witness :
  get_projects world_endless 1000 = OutOfFuel.
Proof.
  apply (get_projects_never_ends world_endless).
  intros req. do 2 eexists. split; [reflexivity|]. split.
  - eexists. split; [reflexivity|]. left. reflexivity.
  - discriminate.
Defined.

(** ** The order of zones does not depend on the provider *)

Lemma str_le_refl a : str_le a a.
Proof.
  destruct (String.leb_total a a); assumption.
Qed.

Lemma sorted_head_least x l y :
  StronglySorted str_le (x :: l) -> In y (x :: l) -> str_le x y.
Proof.
  intros Hs [<- | Hin].
  - apply str_le_refl.
  - inversion Hs as [|x' l' _ Hall]; subst.
    rewrite Forall_forall in Hall. apply Hall. exact Hin.
Qed.

Lemma sorted_permutation_unique l1 :
  forall l2,
    StronglySorted str_le l1 -> StronglySorted str_le l2 ->
    Permutation l1 l2 -> l1 = l2.
Proof.
  induction l1 as [|x l1 IH]; intros l2 H1 H2 Hp.
  - apply Permutation_nil in Hp. congruence.
  - destruct l2 as [|y l2].
    + symmetry in Hp. apply Permutation_nil in Hp. discriminate.
    + assert (Hxy : x = y).
      { apply String.leb_antisym.
        - apply (sorted_head_least x l1 y H1).
          apply (Permutation_in y (Permutation_sym Hp)). left. reflexivity.
        - apply (sorted_head_least y l2 x H2).
          apply (Permutation_in x Hp). left. reflexivity. }
      subst y. f_equal. apply IH.
      * inversion H1; assumption.
      * inversion H2; assumption.
      * exact (Permutation_cons_inv Hp).
Qed.

(** X18: the result of [get_zones] depends on the names served only,
    not on how the provider spreads them over pages nor on their
    order: two enumerations that serve the same names, each as often,
    return the same list. *)
Theorem get_zones_order_independent (w1 w2 : world) (fuel1 fuel2 : nat)
    (project1 project2 : json) (pages1 pages2 : list json)
    (names1 names2 : list (list string)) :
  pages_from w1 (Request (ZonesList project1) None) pages1 ->
  Forall2 page_names pages1 names1 ->
  List.length pages1 <= fuel1 ->
  pages_from w2 (Request (ZonesList project2) None) pages2 ->
  Forall2 page_names pages2 names2 ->
  List.length pages2 <= fuel2 ->
  Permutation (List.concat names1) (List.concat names2) ->
  get_zones w1 fuel1 project1 = get_zones w2 fuel2 project2.
Proof.
  intros P1 N1 F1 P2 N2 F2 Hperm.
  destruct (names_sorted _ _ _ _ _ P1 N1 F1) as (s1 & E1 & S1 & Q1).
  destruct (names_sorted _ _ _ _ _ P2 N2 F2) as (s2 & E2 & S2 & Q2).
  unfold get_zones.
  change (rbind (names_loop w1 fuel1 (Request (ZonesList project1) None) []) py_sort =
          rbind (names_loop w2 fuel2 (Request (ZonesList project2) None) []) py_sort).
  rewrite E1, E2. do 2 f_equal.
  apply sorted_permutation_unique; try assumption.
  rewrite Q1, Hperm. symmetry. exact Q2.
Qed.

Lemma get_zones_order_independent_witness :
  get_zones world_paged 2 (JStr "proj-a") =
  get_zones world_one_page 1 (JStr "proj-a").
Proof.
  apply (get_zones_order_independent world_paged world_one_page 2 1
           (JStr "proj-a") (JStr "proj-a")
           [JDict [("items", JList [JDict [("name", JStr "us-west1-b")];
                                    JDict [("name", JStr "us-east1-b")]]);
                   ("nextPageToken", JStr "z2")];
            JDict [("items", JList [JDict [("name", JStr "europe-west1-c")]])]]
           [JDict [("items", JList [JDict [("name", JStr "europe-west1-c")];
                                    JDict [("name", JStr "us-west1-b")];
                                    JDict [("name", JStr "us-east1-b")]])]]
           [["us-west1-b"; "us-east1-b"]; ["europe-west1-c"]]
           [["europe-west1-c"; "us-west1-b"; "us-east1-b"]]).
  - eapply NextPage; [reflexivity | reflexivity |].
    eapply LastPage; reflexivity.
  - repeat constructor; do 2 eexists;
      (split; [reflexivity|]); (split; [reflexivity|]);
      repeat constructor.
  - simpl. lia.
  - eapply LastPage; reflexivity.
  - repeat constructor; do 2 eexists;
      (split; [reflexivity|]); (split; [reflexivity|]);
      repeat constructor.
  - simpl. lia.
  - cbn [List.concat app].
    apply Permutation_sym.
    apply (Permutation_cons_app ["us-west1-b"; "us-east1-b"] [] "europe-west1-c").
    apply Permutation_refl.
Defined.

(** ** Columns of a row *)

Lemma split_on_no_separator c s :
  contains_char c s = false -> split_on c s = [s].
Proof.
  induction s as [|a s IH]; cbn [contains_char split_on]; [reflexivity|].
  destruct (Ascii.eqb a c); cbn [orb]; [discriminate|].
  intros H. rewrite (IH H). reflexivity.
Qed.

Lemma split_on_field_then_separator c f rest :
  contains_char c f = false ->
  split_on c (f ++ String c rest) = f :: split_on c rest.
Proof.
  induction f as [|a f IH]; cbn [contains_char append split_on].
  - intros _. rewrite Ascii.eqb_refl. reflexivity.
  - destruct (Ascii.eqb a c); cbn [orb]; [discriminate|].
    intros H. rewrite (IH H). reflexivity.
Qed.

Lemma split_on_concat c fields :
  fields <> [] ->
  Forall (fun f => contains_char c f = false) fields ->
  split_on c (String.concat (String c "") fields) = fields.
Proof.
  induction fields as [|f fields IH]; [congruence|]. intros _ Hall.
  inversion Hall as [|f' fs Hf Hrest]; subst.
  destruct fields as [|g fields].
  - cbn [String.concat]. apply split_on_no_separator. exact Hf.
  - change (String.concat (String c "") (f :: g :: fields))
      with (f ++ String c (String.concat (String c "") (g :: fields)))%string.
    rewrite (split_on_field_then_separator _ _ _ Hf).
    rewrite IH; [reflexivity | discriminate | exact Hrest].
Qed.

(** X19: a row can be split back into its columns as long as no
    field holds a comma: splitting the line that [",".join] builds
    from such fields at the commas returns exactly the fields. *)
Theorem row_columns_recovered (fields : list string) :
  fields <> [] ->
  Forall (fun f => contains_char "," f = false) fields ->
  exists line,
    py_join "," (map JStr fields) = Ok line /\
    split_on "," line = fields.
Proof.
  intros Hne Hall. exists (String.concat "," fields). split.
  - apply py_join_strings.
  - apply (split_on_concat ","%char); assumption.
Qed.

Lemma row_columns_recovered_witness :
  exists line,
    py_join "," (map JStr ["k-1"; "browser key"; "AIzaSyA"; "2020-05-01T10:00:00Z"]) =
      Ok line /\
    split_on "," line = ["k-1"; "browser key"; "AIzaSyA"; "2020-05-01T10:00:00Z"].
Proof.
  apply (row_columns_recovered ["k-1"; "browser key"; "AIzaSyA"; "2020-05-01T10:00:00Z"]).
  - discriminate.
  - repeat constructor.
Defined.

Lemma length_split_on c s :
  List.length (split_on c s) = S (count_char c s).
Proof.
  induction s as [|a s IH]; cbn [split_on count_char]; [reflexivity|].
  destruct (Ascii.eqb a c).
  - cbn [List.length]. rewrite IH. reflexivity.
  - destruct (split_on c s) as [|p ps]; cbn [List.length] in *; lia.
Qed.

Lemma count_char_append c a b :
  count_char c (a ++ b) = count_char c a + count_char c b.
Proof.
  induction a as [|x a IH]; cbn [append count_char]; [reflexivity|].
  rewrite IH. lia.
Qed.

Lemma count_char_concat c fields :
  fields <> [] ->
  S (count_char c (String.concat (String c "") fields)) =
  List.length fields + list_sum (map (count_char c) fields).
Proof.
  induction fields as [|f fields IH]; [congruence|]. intros _.
  destruct fields as [|g fields].
  - cbn [String.concat List.length map list_sum fold_right]. lia.
  - change (String.concat (String c "") (f :: g :: fields))
      with (f ++ String c (String.concat (String c "") (g :: fields)))%string.
    rewrite count_char_append. cbn [count_char]. rewrite Ascii.eqb_refl.
    assert (Hne : g :: fields <> []) by discriminate.
    specialize (IH Hne).
    change (list_sum (map (count_char c) (f :: g :: fields)))
      with (count_char c f + list_sum (map (count_char c) (g :: fields))).
    cbn [List.length] in *. lia.
Qed.

(** X20: fields are not escaped.  The row of an API key splits at
    its commas into four columns plus one more for every comma that
    occurs inside a field. *)
Theorem key_row_columns (item : json) (k : api_key) :
  key_record item k ->
  exists line,
    key_row item = Ok line /\
    List.length (split_on "," line) =
      4 + (count_char "," (key_id k) + count_char "," (key_display_name k) +
           count_char "," (key_current_key k) + count_char "," (key_create_time k)).
Proof.
  intros Hrec. exists (key_line k). split; [apply key_row_record; exact Hrec|].
  rewrite length_split_on. unfold key_line.
  rewrite (count_char_concat ","%char); [|discriminate].
  cbn [List.length map list_sum fold_right]. lia.
Qed.

Lemma key_row_columns_witness :
  exists line,
    key_row (JDict [("keyId", JStr "k-2"); ("displayName", JStr "maps, staging");
                    ("currentKey", JStr "AIzaSyB");
                    ("createTime", JStr "2020-05-02T09:30:00Z")]) = Ok line /\
    List.length (split_on "," line) = 5.
Proof.
  apply (key_row_columns
           (JDict [("keyId", JStr "k-2"); ("displayName", JStr "maps, staging");
                   ("currentKey", JStr "AIzaSyB");
                   ("createTime", JStr "2020-05-02T09:30:00Z")])
           key_with_comma).
  repeat split.
Defined.

(** ** More than two addresses *)

(** X21: the SQL row shows the first two entries of "ipAddresses"
    and no other: on a record with more than two addresses the row
    is the one of its first two, the rest is not printed. *)
Theorem sql_row_first_two_addresses (item : json) (r : sql_instance)
    (ip0 ip1 : string) (more : list string) :
  sql_record item r ->
  sql_ip_addresses r = ip0 :: ip1 :: more ->
  sql_row item = Ok (sql_line r ip0 ip1).
Proof.
  intros (H1 & H2 & H3 & H4 & H5 & (settings & S0 & S1 & S2) &
          (addresses & A0 & A)) Hips.
  rewrite Hips in A.
  inversion A as [|a0 i0 l0 l0' Ha0 A' E0 E0']; subst.
  inversion A' as [|a1 i1 l1 l1' Ha1 A'' E1 E1']; subst.
  unfold sql_row. rewrite H1, H2, H3, H4, H5, S0, A0.
  cbn [rbind]. rewrite S1, S2. cbn [rbind].
  rewrite subscript_index_head.
  change (subscript_index (JList (a0 :: a1 :: l1)) 1) with (Ok a1).
  cbn [rbind]. rewrite Ha0, Ha1. reflexivity.
Qed.

Lemma sql_row_first_two_addresses_witness :
  sql_row (sql_json "db-c" (map address_json ["34.1.2.3"; "10.1.0.5"; "34.1.2.9"])) =
    Ok "us-east1,us-east1-b,db-c,RUNNABLE,POSTGRES_13,db-f1-micro,ZONAL,34.1.2.3,10.1.0.5".
Proof.
  apply (sql_row_first_two_addresses _
           (sql_sample "db-c" ["34.1.2.3"; "10.1.0.5"; "34.1.2.9"])
           "34.1.2.3" "10.1.0.5" ["34.1.2.9"]).
  - apply sql_record_sample.
  - reflexivity.
Defined.

(** ** A region listing without items *)

(** X22: the regions are enumerated only when the Addresses section
    starts.  When their listing carries no "items" key, the instance
    and disk sections and the Addresses banner are already printed,
    and the compute report ends there with KeyError. *)
Theorem regions_without_items (w : world) (fuel : nat) (project : json)
    (zones : list json) (instance_lines disk_lines : list (list string))
    (d : list (string * json)) :
  get_zones w fuel project = Ok zones ->
  Forall2 (fun zone ls =>
             listing_rows instance_row
               (execute w (Request (InstancesList project zone) None)) ls)
          zones instance_lines ->
  Forall2 (fun zone ls =>
             listing_rows disk_row
               (execute w (Request (DisksList project zone) None)) ls)
          zones disk_lines ->
  execute w (Request (RegionsList project) None) = Reply (JDict d) ->
  dict_get "items" d = None ->
  0 < fuel ->
  compute_instance_report w fuel project =
    ("==== Compute Engine ====" :: "-- Instances --" ::
       List.concat instance_lines ++
       "-- Disks --" :: List.concat disk_lines ++ ["-- Addresses --"],
     Raise KeyError).
Proof.
  intros Hz Hi Hd Hexec Hitems Hfuel.
  assert (Hr : get_regions w fuel project = Raise KeyError).
  { destruct fuel as [|fuel]; [lia|]. unfold get_regions.
    cbn [names_loop]. rewrite Hexec. cbn [of_reply rbind subscript_key].
    rewrite Hitems. reflexivity. }
  unfold compute_instance_report, list_instances, list_disks.
  pose proof (section_rows w instance_row
                (fun zone => Request (InstancesList project zone) None) _ _ Hi)
    as Si.
  pose proof (section_rows w disk_row
                (fun zone => Request (DisksList project zone) None) _ _ Hd)
    as Sd.
  cbv beta in Si, Sd.
  rewrite Hz, Hr.
  repeat (first [ rewrite bind_print | rewrite bind_lift_ok
                | rewrite bind_lift_raise
                | rewrite Si | rewrite Sd
                | rewrite bind_outcome ];
          cbn [fst snd]).
  reflexivity.
Qed.

Lemma regions_without_items_witness :
  compute_instance_report world_no_regions 1 (JStr "demo-project") =
    (["==== Compute Engine ====";
      "-- Instances --";
      "us-east1-b,web-1,RUNNING,e2-small,10.0.0.3,34.9.8.7";
      "-- Disks --";
      "-- Addresses --"], Raise KeyError).
Proof.
  apply (regions_without_items world_no_regions 1 (JStr "demo-project")
           [JStr "us-east1-b"]
           [["us-east1-b,web-1,RUNNING,e2-small,10.0.0.3,34.9.8.7"]]
           [[]] [("kind", JStr "compute#regionList")]).
  - reflexivity.
  - constructor; [|constructor]. eexists. split; [reflexivity|].
    right. eexists. split; reflexivity.
  - constructor; [|constructor]. eexists. split; [reflexivity|].
    left. split; reflexivity.
  - reflexivity.
  - reflexivity.
  - lia.
Defined.
